(** * Jammu weather dashboard: a shallow embedding of [app.py]

    The dashboard is glue code around four services: the Meteostat
    climate archive, a local CSV file, the OpenWeather HTTP API and the
    Prophet forecasting library.  Their answers are supplied by a [World]
    record; every call that leaves the script (a fetch, a file read, a
    library call, a Streamlit message) is recorded as an [event], so that
    statements such as "the fallback file is not read" are statements
    about the trace of a run.

    [get_data.py] is the offline script that writes the fallback CSV from
    a Meteostat fetch (and writes nothing when the fetch comes back
    empty); the dashboard only reads that file, so here the file is one of
    the answers of the world ([csv_files]).

    Layout: Python values and exceptions, the part of pandas the script
    uses, the outside world and the effect monad, the Prophet calls, the
    functions of [app.py], then the properties. *)

From Stdlib Require Import String Ascii List ZArith Bool Arith Lia DecimalString.
Import ListNotations.

Local Open Scope string_scope.
Local Open Scope list_scope.

(* ===================================================================== *)
(** ** Python values *)

(** A Python float is identified by the text [repr] prints for it (repr
    round-trips, so this loses nothing); the script never computes with
    the floats it passes around, it only hands them on and formats them. *)
Record pyfloat := PyFloat { float_repr : string }.

(** [datetime(year, month, day)] plus the microseconds past midnight. *)
Record datetime := mk_datetime {
  dt_year : Z; dt_month : Z; dt_day : Z; dt_micros : Z
}.

(** The exception classes the script names in an [except] clause or that
    the modelled libraries raise.  Only subclasses of [Exception] are
    modelled; asynchronous interrupts are outside the model. *)
Inductive exn_class :=
| FileNotFoundError
| KeyError
| ValueError
| RequestException  (* requests.exceptions.RequestException itself *)
| HTTPError         (* ... and its subclasses *)
| ConnectionError
| RequestTimeout    (* requests.exceptions.Timeout *)
| JSONDecodeError   (* requests.exceptions.JSONDecodeError *)
| OtherException (name : string).

Record exn := Exn { exn_cls : exn_class; exn_msg : string }.

(** [isinstance(e, requests.exceptions.RequestException)] *)
Definition is_RequestException (e : exn) : bool :=
  match exn_cls e with
  | RequestException | HTTPError | ConnectionError | RequestTimeout
  | JSONDecodeError => true
  | _ => false
  end.

Definition is_FileNotFoundError (e : exn) : bool :=
  match exn_cls e with FileNotFoundError => true | _ => false end.

Definition is_KeyError (e : exn) : bool :=
  match exn_cls e with KeyError => true | _ => false end.

(** How a call ends: with a value or with a raised exception. *)
Inductive outcome (A : Type) :=
| Return (a : A)
| Raise (e : exn).
Arguments Return {A} a.
Arguments Raise {A} e.

(** [str(n)] for a non-negative integer. *)
Definition str_nat (n : nat) : string := NilZero.string_of_uint (Nat.to_uint n).

(** Python's [needle in haystack] on strings. *)
Fixpoint contains (needle haystack : string) : bool :=
  prefix needle haystack ||
  match haystack with
  | EmptyString => false
  | String _ rest => contains needle rest
  end.

(** Parsed JSON, as [response.json()] returns it. *)
#[local] Unset Elimination Schemes.
Inductive json :=
| JNull
| JBool (b : bool)
| JInt (z : Z)
| JFloat (x : pyfloat)
| JStr (s : string)
| JList (items : list json)
| JDict (fields : list (string * json)).
#[local] Set Elimination Schemes.

(* ===================================================================== *)
(** ** pandas: the DataFrame operations used by the script *)

Module Pandas.

(** A cell.  [NA] stands for every missing marker (NaN, None, NaT);
    [Stamp] is a timestamp in nanoseconds since the epoch. *)
Inductive value :=
| NA
| Int (z : Z)
| Num (x : pyfloat)
| Stamp (ns : Z).

Definition notna (v : value) : bool :=
  match v with NA => false | _ => true end.

(** A frame with a single-level index, stored column by column.  Column
    labels may repeat, as pandas allows.  In a frame built by pandas every
    column is as long as the index ([well_formed]). *)
Record DataFrame := mkDataFrame {
  index_name : option string;
  index : list value;
  series : list (string * list value)
}.

Definition well_formed (df : DataFrame) : Prop :=
  forall c, In c (series df) -> length (snd c) = length (index df).

(** [pd.DataFrame()] *)
Definition new_DataFrame : DataFrame := mkDataFrame None [] [].

(** [df.columns] *)
Definition columns (df : DataFrame) : list string := map fst (series df).

(** [len(df)] *)
Definition len (df : DataFrame) : nat := length (index df).

(** [df.empty]: some axis has length zero. *)
Definition empty (df : DataFrame) : bool :=
  (len df =? 0)%nat || (length (series df) =? 0)%nat.

(** [name in df.columns] *)
Definition has_column (name : string) (df : DataFrame) : bool :=
  existsb (String.eqb name) (columns df).

Fixpoint zip_and (a b : list bool) : list bool :=
  match a, b with
  | x :: a', y :: b' => (x && y) :: zip_and a' b'
  | _, _ => []
  end.

(** Positions of the rows in which no column is missing. *)
Definition complete_rows (df : DataFrame) : list bool :=
  fold_right (fun c m => zip_and (map notna (snd c)) m)
             (map (fun _ => true) (index df)) (series df).

Fixpoint keep {A : Type} (m : list bool) (l : list A) : list A :=
  match m, l with
  | b :: m', x :: l' => if b then x :: keep m' l' else keep m' l'
  | _, _ => []
  end.

(** [df.dropna()]: drop every row that has a missing value in a column
    (the index labels are not inspected). *)
Definition dropna (df : DataFrame) : DataFrame :=
  let m := complete_rows df in
  mkDataFrame (index_name df) (keep m (index df))
              (map (fun c => (fst c, keep m (snd c))) (series df)).

(** [pd.RangeIndex(n)] *)
Definition RangeIndex (n : nat) : list value :=
  map (fun i => Int (Z.of_nat i)) (seq 0 n).

(** [df.reset_index()]: the index becomes the first column, labelled with
    the index name (or the default label), and a fresh range index takes
    its place.  pandas refuses when the label is already a column. *)
Definition reset_index (df : DataFrame) : outcome DataFrame :=
  let label :=
    match index_name df with
    | Some n => n
    | None => if has_column "index" df then "level_0" else "index"
    end in
  if has_column label df
  then Raise (Exn ValueError ("cannot insert " ++ label ++ ", already exists"))
  else Return (mkDataFrame None (RangeIndex (len df))
                           ((label, index df) :: series df)).

Definition relabel (mapping : list (string * string)) (l : string) : string :=
  match find (fun p => String.eqb (fst p) l) mapping with
  | Some p => snd p
  | None => l
  end.

(** [df.rename(columns=mapping)] *)
Definition rename (mapping : list (string * string)) (df : DataFrame)
  : DataFrame :=
  mkDataFrame (index_name df) (index df)
              (map (fun c => (relabel mapping (fst c), snd c)) (series df)).

(** [df[[l1, ..., ln]]]: the columns carrying the requested labels, in the
    requested order; [KeyError] when a label is absent. *)
Definition getitem (labels : list string) (df : DataFrame)
  : outcome DataFrame :=
  match find (fun l => negb (has_column l df)) labels with
  | Some l => Raise (Exn KeyError ("['" ++ l ++ "'] not in index"))
  | None =>
      Return (mkDataFrame (index_name df) (index df)
                (flat_map (fun l => filter (fun c => String.eqb (fst c) l)
                                           (series df)) labels))
  end.

(** [df[label]] as a list of cells (the first column with that label). *)
Definition column (label : string) (df : DataFrame) : list value :=
  match find (fun c => String.eqb (fst c) label) (series df) with
  | Some c => snd c
  | None => []
  end.

End Pandas.
Import Pandas.

(* ===================================================================== *)
(** ** The outside world and the effects of a run *)

(** [meteostat.Point(lat, lon, alt)] *)
Record Point := mkPoint { pt_lat : pyfloat; pt_lon : pyfloat; pt_alt : Z }.

(** A [requests.Response]: status line, the URL it answers, and what
    [response.json()] does with the body. *)
Record Response := mkResponse {
  status_code : Z;
  reason : string;
  resp_url : string;
  json_body : outcome json
}.

(** One point of a Prophet forecast (the columns the dashboard plots). *)
Record forecast_point := mk_point {
  trend : value; yhat_lower : value; yhat_upper : value; yhat : value
}.

Inductive st_element := st_title | st_info | st_success | st_warning | st_error.

(** Everything a run does that is visible outside the script. *)
Inductive event :=
| EvStreamlit (element : st_element) (text : string)
| EvTabs (labels : list string)
| EvMeteostat (location : Point) (start_date end_date : datetime)
| EvReadCsv (path : string) (index_col : Z) (parse_dates : bool)
| EvHttpGet (url : string) (timeout : Z)
| EvProphetInit (daily weekly yearly : bool)
| EvProphetFit (df : DataFrame)
| EvMakeFuture (periods : nat)
| EvPredict (future : DataFrame).

(** The answers of the environment.  Each field is what the named call
    would produce; the script has no influence on them. *)
Record World := mkWorld {
  (** [st.secrets["api"]["openweather_api_key"]] *)
  secrets_api_key : outcome string;
  (** [datetime.now()] *)
  clock : datetime;
  (** [Daily(location, start, end).fetch()] *)
  meteostat : Point -> datetime -> datetime -> outcome DataFrame;
  (** [pd.read_csv(path, index_col=0, parse_dates=True)] *)
  csv_files : string -> outcome DataFrame;
  (** [requests.get(url, timeout=...)] *)
  http : string -> outcome Response;
  (** [pd.to_datetime] on a float cell (epoch offset, or a failure) *)
  float_to_datetime : pyfloat -> outcome Z;
  (** the Stan optimiser behind [Prophet.fit]: [Some e] when fitting fails *)
  stan_fit : DataFrame -> option exn;
  (** the fitted model evaluated at one timestamp *)
  stan_predict : DataFrame -> Z -> forecast_point
}.

(** A computation reads the world, appends to the trace and either
    returns or raises. *)
Definition M (A : Type) : Type := World -> list event * outcome A.

Definition ret {A} (a : A) : M A := fun _ => ([], Return a).

Definition bind {A B} (m : M A) (k : A -> M B) : M B :=
  fun w =>
    match m w with
    | (t, Return a) => let (t', r) := k a w in (t ++ t', r)
    | (t, Raise e) => (t, Raise e)
    end.

Definition raise {A} (e : exn) : M A := fun _ => ([], Raise e).
Definition emit (ev : event) : M unit := fun _ => ([ev], Return tt).
Definition ask {A} (f : World -> outcome A) : M A := fun w => ([], f w).
Definition lift {A} (o : outcome A) : M A := fun _ => ([], o).

(** [try: body  except <classes>: handler].  The handler runs only for an
    exception the clause names; any other exception keeps propagating. *)
Definition try_except {A} (body : M A) (catches : exn -> bool)
                      (handler : exn -> M A) : M A :=
  fun w =>
    match body w with
    | (t, Raise e) =>
        if catches e then let (t', r) := handler e w in (t ++ t', r)
        else (t, Raise e)
    | done => done
    end.

Declare Scope py_scope.
Delimit Scope py_scope with py.
Notation "x <- c ;; k" := (bind c (fun x => k))
  (at level 61, c at next level, right associativity) : py_scope.
Notation "c ;; k" := (bind c (fun _ => k))
  (at level 61, right associativity) : py_scope.
Local Open Scope py_scope.

Definition trace {A} (r : list event * outcome A) : list event := fst r.
Definition result {A} (r : list event * outcome A) : outcome A := snd r.

(** *** Library calls as effects *)

Definition st (element : st_element) (text : string) : M unit :=
  emit (EvStreamlit element text).

Definition Daily_fetch (location : Point) (start_date end_date : datetime)
  : M DataFrame :=
  emit (EvMeteostat location start_date end_date) ;;
  ask (fun w => meteostat w location start_date end_date).

Definition pd_read_csv (path : string) (index_col : Z) (parse_dates : bool)
  : M DataFrame :=
  emit (EvReadCsv path index_col parse_dates) ;;
  ask (fun w => csv_files w path).

Definition requests_get (url : string) (timeout : Z) : M Response :=
  emit (EvHttpGet url timeout) ;;
  ask (fun w => http w url).

Definition str_Z (z : Z) : string := NilZero.string_of_int (Z.to_int z).

(** [response.raise_for_status()] *)
Definition raise_for_status (r : Response) : outcome unit :=
  let s := status_code r in
  if (400 <=? s)%Z && (s <? 500)%Z then
    Raise (Exn HTTPError (str_Z s ++ " Client Error: " ++ reason r
                          ++ " for url: " ++ resp_url r))
  else if (500 <=? s)%Z && (s <? 600)%Z then
    Raise (Exn HTTPError (str_Z s ++ " Server Error: " ++ reason r
                          ++ " for url: " ++ resp_url r))
  else Return tt.

(* ===================================================================== *)
(** ** Prophet: the four calls the script makes

    Prophet is an external library.  The statistical fit is a black box
    supplied by the world ([stan_fit], [stan_predict]); what is modelled
    here is the bookkeeping its documentation describes: a model can be
    fit once, [fit] remembers the distinct training dates in order,
    [make_future_dataframe] extends them day by day, and [predict]
    returns one row per requested date. *)

Module ProphetLib.

Record Prophet := mkProphet {
  daily_seasonality : bool;
  weekly_seasonality : bool;
  yearly_seasonality : bool;
  history : option DataFrame;       (* set by [fit] *)
  history_dates : option (list Z)   (* set by [fit] *)
}.

(** One day, in the unit of [Stamp]. *)
Definition one_day : Z := 86400000000000.

Fixpoint traverse {A B} (f : A -> outcome B) (l : list A) : outcome (list B) :=
  match l with
  | [] => Return []
  | x :: l' =>
      match f x with
      | Raise e => Raise e
      | Return y =>
          match traverse f l' with
          | Raise e => Raise e
          | Return ys => Return (y :: ys)
          end
      end
  end.

(** [pd.to_datetime] on one cell. *)
Definition to_datetime (w : World) (v : value) : outcome Z :=
  match v with
  | Stamp t => Return t
  | Int z => Return z
  | Num x => float_to_datetime w x
  | NA => Raise (Exn ValueError "Found NaN in column ds.")
  end.

Fixpoint insert_sorted (x : Z) (l : list Z) : list Z :=
  match l with
  | [] => [x]
  | y :: l' => if (x <=? y)%Z then x :: l else y :: insert_sorted x l'
  end.

(** [Series.sort_values()] *)
Definition sort_values (l : list Z) : list Z := fold_right insert_sorted [] l.

(** [Series.unique()] *)
Definition unique (l : list Z) : list Z := rev (nodup Z.eq_dec (rev l)).

(** [Series.max()]; [None] on an empty series. *)
Definition max_date (l : list Z) : option Z :=
  match l with
  | [] => None
  | x :: l' => Some (fold_right Z.max x l')
  end.

(** [Prophet(daily_seasonality=.., weekly_seasonality=.., yearly_seasonality=..)] *)
Definition Prophet_new (daily weekly yearly : bool) : M Prophet :=
  emit (EvProphetInit daily weekly yearly) ;;
  ret (mkProphet daily weekly yearly None None).

(** [m.fit(df)]; returns the fitted model (Python mutates [m]). *)
Definition fit (m : Prophet) (df : DataFrame) : M Prophet :=
  emit (EvProphetFit df) ;;
  match history m with
  | Some _ =>
      raise (Exn (OtherException "Exception")
                 "Prophet object can only be fit once. Instantiate a new object.")
  | None =>
      if negb (has_column "ds" df && has_column "y" df) then
        raise (Exn ValueError
                   "Dataframe must have columns 'ds' and 'y' with the dates and values respectively.")
      else if (length (filter notna (column "y" df)) <? 2)%nat then
        raise (Exn ValueError "Dataframe has less than 2 non-NaN rows.")
      else
        dates <- ask (fun w => traverse (to_datetime w) (column "ds" df)) ;;
        failure <- ask (fun w => Return (stan_fit w df)) ;;
        match failure with
        | Some e => raise e
        | None =>
            ret (mkProphet (daily_seasonality m) (weekly_seasonality m)
                           (yearly_seasonality m) (Some df)
                           (Some (sort_values (unique dates))))
        end
  end.

(** The dates [make_future_dataframe] appends: [periods] daily steps
    after [last_date]. *)
Definition future_dates (last_date : Z) (periods : nat) : list Z :=
  map (fun k => (last_date + Z.of_nat k * one_day)%Z) (seq 1 periods).

(** The one-column frame of dates that [make_future_dataframe] builds. *)
Definition future_frame (dates : list Z) : DataFrame :=
  mkDataFrame None (RangeIndex (length dates)) [("ds", map Stamp dates)].

(** [m.make_future_dataframe(periods=periods)], with the defaults
    [freq='D'] and [include_history=True]. *)
Definition make_future_dataframe (m : Prophet) (periods : nat) : M DataFrame :=
  emit (EvMakeFuture periods) ;;
  match history_dates m with
  | None => raise (Exn (OtherException "Exception") "Model has not been fit.")
  | Some dates =>
      match max_date dates with
      | None => raise (Exn ValueError "Neither `start` nor `end` can be NaT")
      | Some last_date =>
          ret (future_frame (dates ++ future_dates last_date periods))
      end
  end.

(** The frame [predict] returns, reduced to the columns the dashboard
    uses; Prophet adds further component columns. *)
Definition forecast_frame (dates : list Z) (points : list forecast_point)
  : DataFrame :=
  mkDataFrame None (RangeIndex (length dates))
    [("ds", map Stamp dates);
     ("trend", map trend points);
     ("yhat_lower", map yhat_lower points);
     ("yhat_upper", map yhat_upper points);
     ("yhat", map yhat points)].

(** [m.predict(future)]: one forecast row per row of [future]. *)
Definition predict (m : Prophet) (future : DataFrame) : M DataFrame :=
  emit (EvPredict future) ;;
  match history m with
  | None => raise (Exn (OtherException "Exception") "Model has not been fit.")
  | Some training =>
      if (len future =? 0)%nat then
        raise (Exn ValueError "Dataframe has no rows.")
      else
        dates <- ask (fun w => traverse (to_datetime w) (column "ds" future)) ;;
        points <- ask (fun w => Return (map (stan_predict w training) dates)) ;;
        ret (forecast_frame dates points)
  end.

End ProphetLib.
Import ProphetLib.

(* ===================================================================== *)
(** ** [app.py] *)

(** Lines 18-22: the API key from the Streamlit secrets, or [None]. *)
Definition OPENWEATHER_API_KEY : M (option string) :=
  try_except
    (key <- ask secrets_api_key ;; ret (Some key))
    (fun e => is_KeyError e || is_FileNotFoundError e)
    (fun _ =>
       st st_error "OpenWeather API key not found. Please add it to your .streamlit/secrets.toml file." ;;
       ret None).

(** Jammu's coordinates. *)
Definition JAMMU_LAT : pyfloat := PyFloat "32.73".
Definition JAMMU_LON : pyfloat := PyFloat "74.86".

(** The test of line 45. *)
Definition sufficient (df : DataFrame) : bool :=
  negb (empty df) && has_column "prcp" df && (30 <? len (dropna df))%nat.

(** Lines 30-60: the body of the decorated function, which a call that
    misses the memo of [st.cache_data] runs; the memo itself is
    [cached_get_historical_data] below.  The script passes
    [datetime.now()] as [end_date], so every run is a fresh key and
    executes this body.  [Daily(...)] loads the data and [fetch()]
    hands them over: the two are one effect here.  The first [try] either
    returns the fetched frame ([Some df]) or falls through to the
    fallback ([None]). *)
Definition get_historical_data (lat lon : pyfloat)
                               (start_date end_date : datetime) : M DataFrame :=
  st st_info "Fetching historical data from Meteostat..." ;;
  fetched <-
    try_except
      (let location := mkPoint lat lon 327 in
       df <- Daily_fetch location start_date end_date ;;
       if sufficient df then
         st st_success "Successfully fetched historical data from Meteostat." ;;
         ret (Some df)
       else
         st st_warning "Meteostat API returned insufficient data. Using a fallback dataset." ;;
         ret None)
      (fun _ => true)
      (fun e =>
         st st_error ("Error fetching data from Meteostat: " ++ exn_msg e
                      ++ ". Using a fallback dataset.") ;;
         ret None) ;;
  match fetched with
  | Some df => ret df
  | None =>
      try_except
        (df_fallback <- pd_read_csv "jammu_historical_weather.csv" 0 true ;;
         st st_success "Successfully loaded data from local fallback CSV." ;;
         ret df_fallback)
        is_FileNotFoundError
        (fun _ =>
           st st_error "Fallback file 'jammu_historical_weather.csv' not found. Please ensure it exists." ;;
           ret new_DataFrame)
  end.

(** The URL of line 69. *)
Definition weather_url (api_key : string) (lat lon : pyfloat) : string :=
  "https://api.openweathermap.org/data/2.5/weather?lat=" ++ float_repr lat
  ++ "&lon=" ++ float_repr lon ++ "&appid=" ++ api_key ++ "&units=metric".

(** [not api_key] *)
Definition falsy (api_key : option string) : bool :=
  match api_key with
  | None => true
  | Some key => String.eqb key ""
  end.

Definition str_key (api_key : option string) : string :=
  match api_key with Some key => key | None => "None" end.

(** Lines 62-76.  The result is a Python value: [None] is the [None] of
    lines 67 and 76, [Some body] is what [response.json()] parsed, which
    is Python's [None] once more when the body is the JSON [null]. *)
Definition get_real_time_data (api_key : option string) (lat lon : pyfloat)
  : M (option json) :=
  if falsy api_key then ret None
  else
    let url := weather_url (str_key api_key) lat lon in
    try_except
      (response <- requests_get url 10 ;;
       lift (raise_for_status response) ;;
       body <- lift (json_body response) ;;
       ret (Some body))
      is_RequestException
      (fun e =>
         st st_error ("Error fetching real-time weather data: " ++ exn_msg e) ;;
         ret None).

(** Lines 86-90: the frame handed to Prophet. *)
Definition prepare (historical_df : DataFrame) : outcome DataFrame :=
  match reset_index historical_df with
  | Raise e => Raise e
  | Return df =>
      let df_prophet := rename [("time", "ds"); ("prcp", "y")] df in
      match getitem ["ds"; "y"] df_prophet with
      | Raise e => Raise e
      | Return df_prophet => Return (dropna df_prophet)
      end
  end.

(** Lines 97-101: the calls into Prophet. *)
Definition run_prophet (df_prophet : DataFrame) : M DataFrame :=
  m <- Prophet_new true false true ;;
  m <- fit m df_prophet ;;
  future <- make_future_dataframe m 15 ;;
  forecast <- predict m future ;;
  ret forecast.

(** Lines 79-101. *)
Definition get_forecast_data (historical_df : DataFrame) : M DataFrame :=
  if empty historical_df || negb (has_column "prcp" historical_df) then
    ret new_DataFrame
  else
    df_prophet <- lift (prepare historical_df) ;;
    if (len df_prophet <? 30)%nat then
      st st_warning ("Not enough data to generate a forecast. Only "
                     ++ str_nat (len df_prophet) ++ " data points available.") ;;
      ret new_DataFrame
    else
      run_prophet df_prophet.

(** What the tabs are drawn from. *)
Record dashboard_data := mk_data {
  historical_df : DataFrame;
  forecast_df : DataFrame;
  real_time_data : option json
}.

(** Lines 18-22 and 105-113: everything the script does before it draws
    the tabs.  The tab bodies (lines 115-186) only build charts, metrics
    and the map from these three values. *)
Definition fetch_data_for_all_tabs : M dashboard_data :=
  api_key <- OPENWEATHER_API_KEY ;;
  st st_title "Jammu Weather Trend & Forecast Dashboard" ;;
  emit (EvTabs ["Historical Trends"; "Forecast"; "Real-time Weather"; "Risk Map"]) ;;
  now <- ask (fun w => Return (clock w)) ;;
  historical_df <- get_historical_data JAMMU_LAT JAMMU_LON
                                       (mk_datetime 2020 1 1 0) now ;;
  forecast_df <- get_forecast_data historical_df ;;
  real_time_data <- get_real_time_data api_key JAMMU_LAT JAMMU_LON ;;
  ret (mk_data historical_df forecast_df real_time_data).

(** *** The risk map (lines 161-186) *)

Record hotspot := mk_hotspot {
  hs_lat : pyfloat; hs_lon : pyfloat; hs_name : string; hs_risk : string
}.

Definition landslide_hotspots : list hotspot :=
  [ mk_hotspot (PyFloat "32.78") (PyFloat "74.92") "Nagrota" "High";
    mk_hotspot (PyFloat "32.75") (PyFloat "74.88") "Jammu City" "Medium" ].

(** [folium.Icon(color=.., icon=.., prefix=..)] *)
Record Icon := mk_icon {
  icon_color : string; icon_name : string; icon_prefix : string
}.

(** [folium.Marker(location=.., popup=.., icon=..)] *)
Record Marker := mk_marker {
  marker_location : pyfloat * pyfloat;
  marker_popup : string;
  marker_icon : Icon
}.

(** [folium.Map(location=.., zoom_start=..)] and the markers added to it. *)
Record FoliumMap := mk_map {
  map_location : pyfloat * pyfloat;
  zoom_start : Z;
  markers : list Marker
}.

(** The body of the loop of lines 176-184. *)
Definition hotspot_marker (h : hotspot) : Marker :=
  let color := if String.eqb (hs_risk h) "High" then "red" else "orange" in
  let icon := if contains "Cloudburst" (hs_name h) then "cloud" else "bolt" in
  mk_marker (hs_lat h, hs_lon h)
            ("**" ++ hs_name h ++ "**<br>Risk: " ++ hs_risk h)
            (mk_icon color icon "fa").

Definition add_to (mk : Marker) (m : FoliumMap) : FoliumMap :=
  mk_map (map_location m) (zoom_start m) (markers m ++ [mk]).

(** The map handed to [st_folium]. *)
Definition risk_map : FoliumMap :=
  fold_left (fun m h => add_to (hotspot_marker h) m) landslide_hotspots
            (mk_map (JAMMU_LAT, JAMMU_LON) 11 []).

(* ===================================================================== *)
(** ** Reading traces *)

Definition is_meteostat (ev : event) : bool :=
  match ev with EvMeteostat _ _ _ => true | _ => false end.
Definition is_read_csv (ev : event) : bool :=
  match ev with EvReadCsv _ _ _ => true | _ => false end.
Definition is_http_get (ev : event) : bool :=
  match ev with EvHttpGet _ _ => true | _ => false end.
Definition is_prophet_init (ev : event) : bool :=
  match ev with EvProphetInit _ _ _ => true | _ => false end.
Definition is_prophet_fit (ev : event) : bool :=
  match ev with EvProphetFit _ => true | _ => false end.
Definition is_make_future (ev : event) : bool :=
  match ev with EvMakeFuture _ => true | _ => false end.
Definition is_predict (ev : event) : bool :=
  match ev with EvPredict _ => true | _ => false end.

(** A fetch from an external data provider. *)
Definition is_fetch (ev : event) : bool := is_meteostat ev || is_http_get ev.

(** A call into the forecasting library. *)
Definition is_prophet (ev : event) : bool :=
  is_prophet_init ev || is_prophet_fit ev || is_make_future ev || is_predict ev.

(** How many events of a kind a trace holds. *)
Definition count (p : event -> bool) (t : list event) : nat :=
  length (filter p t).

(** Every event a computation can emit, in any world, satisfies [allowed]. *)
Definition only {A} (allowed : event -> bool) (m : M A) : Prop :=
  forall w, forallb allowed (trace (m w)) = true.

(** The Meteostat fetch did not deliver: it raised, or its data fail the
    test of line 45. *)
Definition fetch_failed (w : World) (lat lon : pyfloat)
                        (start_date end_date : datetime) : Prop :=
  match meteostat w (mkPoint lat lon 327) start_date end_date with
  | Raise _ => True
  | Return df => sufficient df = false
  end.

Definition fallback_csv : string := "jammu_historical_weather.csv".

(** The key the script works with once the secrets lookup of lines 18-22
    is over: the configured one, or [None]. *)
Definition configured_key (w : World) : option string :=
  match secrets_api_key w with
  | Return key => Some key
  | Raise _ => None
  end.

(** Line 111 with its arguments. *)
Definition historical_stage : M DataFrame :=
  fun w => get_historical_data JAMMU_LAT JAMMU_LON (mk_datetime 2020 1 1 0)
                               (clock w) w.

(** Line 113 with its arguments. *)
Definition real_time_stage : M (option json) :=
  fun w => get_real_time_data (configured_key w) JAMMU_LAT JAMMU_LON w.

(** The fallback branch of [get_historical_data] (lines 53-60) on its own. *)
Definition fallback_run (w : World) : list event * outcome DataFrame :=
  match csv_files w fallback_csv with
  | Return d =>
      ([EvReadCsv fallback_csv 0 true;
        EvStreamlit st_success "Successfully loaded data from local fallback CSV."],
       Return d)
  | Raise ex =>
      if is_FileNotFoundError ex then
        ([EvReadCsv fallback_csv 0 true;
          EvStreamlit st_error "Fallback file 'jammu_historical_weather.csv' not found. Please ensure it exists."],
         Return new_DataFrame)
      else ([EvReadCsv fallback_csv 0 true], Raise ex)
  end.

(* ===================================================================== *)
(** ** Sample worlds *)

Module Samples.

Definition day (n : nat) : value := Stamp (Z.of_nat n * one_day).

Definition since : datetime := mk_datetime 2020 1 1 0.
Definition today : datetime := mk_datetime 2025 6 1 0.

(** [n] consecutive days of complete observations, Meteostat-shaped. *)
Definition daily_frame (n : nat) : DataFrame :=
  mkDataFrame (Some "time") (map day (seq 0 n))
    [("tavg", map (fun _ => Num (PyFloat "21.5")) (seq 0 n));
     ("prcp", map (fun _ => Num (PyFloat "0.0")) (seq 0 n))].

Definition no_file : exn :=
  Exn FileNotFoundError
      "[Errno 2] No such file or directory: 'jammu_historical_weather.csv'".

Definition unreachable : exn :=
  Exn ConnectionError "Max retries exceeded".

Definition flat_point : forecast_point :=
  mk_point (Num (PyFloat "1.0")) (Num (PyFloat "0.0"))
           (Num (PyFloat "2.0")) (Num (PyFloat "1.0")).

Definition current_weather : json :=
  JDict [("main", JDict [("temp", JFloat (PyFloat "31.2"));
                         ("humidity", JInt 40)]);
         ("dt", JInt 1700000000)].

Definition ok_response (url : string) : Response :=
  mkResponse 200 "OK" url (Return current_weather).

(** Everything works: Meteostat delivers [n] complete days, the CSV holds
    [k] days, the key is configured and OpenWeather answers. *)
Definition online (n k : nat) : World :=
  mkWorld (Return "k3y") today
          (fun _ _ _ => Return (daily_frame n))
          (fun _ => Return (daily_frame k))
          (fun url => Return (ok_response url))
          (fun _ => Raise (Exn ValueError "not a timestamp"))
          (fun _ => None)
          (fun _ _ => flat_point).

(** No network, no fallback file, no key. *)
Definition offline : World :=
  mkWorld (Raise (Exn KeyError "'api'")) today
          (fun _ _ _ => Raise unreachable)
          (fun _ => Raise no_file)
          (fun _ => Raise unreachable)
          (fun _ => Raise (Exn ValueError "not a timestamp"))
          (fun _ => None)
          (fun _ _ => flat_point).

(** No network, but the fallback file holds [k] days and a key is set. *)
Definition fallback_only (k : nat) : World :=
  mkWorld (Return "k3y") today
          (fun _ _ _ => Raise unreachable)
          (fun _ => Return (daily_frame k))
          (fun _ => Raise unreachable)
          (fun _ => Raise (Exn ValueError "not a timestamp"))
          (fun _ => None)
          (fun _ _ => flat_point).

End Samples.

(* ===================================================================== *)
(** ** The rest of the code: the tabs of [app.py] and [get_data.py]

    The tab bodies draw from the three values fetched at the top and
    touch nothing outside the page, so a tab is a list of widgets and an
    outcome.  Plotly and folium objects are kept as the arguments they
    were built from.  Two services of the Python runtime are left to a
    [Runtime] record: the text of a container inside an f-string, and the
    local-time rendering of a timestamp, which depends on the time zone
    of the machine. *)

(** Output and exceptions without a world. *)
Definition Out (E A : Type) : Type := (list E * outcome A)%type.

Definition out_ret {E A} (a : A) : Out E A := ([], Return a).

Definition out_bind {E A B} (m : Out E A) (k : A -> Out E B) : Out E B :=
  match m with
  | (t, Return a) => let (t', r) := k a in (t ++ t', r)
  | (t, Raise e) => (t, Raise e)
  end.

Definition out_emit {E} (e : E) : Out E unit := ([e], Return tt).
Definition out_lift {E A} (o : outcome A) : Out E A := ([], o).

Definition out_try {E A} (body : Out E A) (catches : exn -> bool)
                   (handler : exn -> Out E A) : Out E A :=
  match body with
  | (t, Raise e) =>
      if catches e then let (t', r) := handler e in (t ++ t', r)
      else (t, Raise e)
  | done => done
  end.

Declare Scope out_scope.
Delimit Scope out_scope with out.
Notation "x <- c ;; k" := (out_bind c (fun x => k))
  (at level 61, c at next level, right associativity) : out_scope.
Notation "c ;; k" := (out_bind c (fun _ => k))
  (at level 61, right associativity) : out_scope.

(** *** More pandas *)

(** [df[label]]: [KeyError] when the label is absent. *)
Definition getcol (label : string) (df : DataFrame) : outcome (list value) :=
  if has_column label df then Return (column label df)
  else Raise (Exn KeyError ("'" ++ label ++ "'")).

Definition last_n {A} (n : nat) (l : list A) : list A :=
  skipn (length l - n) l.

(** [df.tail(n)]: the last [n] rows, or all of them when there are fewer. *)
Definition df_tail (n : nat) (df : DataFrame) : DataFrame :=
  mkDataFrame (index_name df) (last_n n (index df))
              (map (fun c => (fst c, last_n n (snd c))) (series df)).

(** [df.set_index(label)]: the column becomes the index and leaves the
    columns (frames with one column of that label). *)
Definition set_index (label : string) (df : DataFrame) : outcome DataFrame :=
  if has_column label df then
    Return (mkDataFrame (Some label) (column label df)
              (filter (fun c => negb (String.eqb (fst c) label)) (series df)))
  else Raise (Exn KeyError ("None of ['" ++ label ++ "'] are in the columns")).

(** *** Widgets *)

(** [fig.add_scatter(x=.., y=.., fill=.., mode=.., line_color=.., name=..)] *)
Record Scatter := mk_scatter {
  sc_x : list value; sc_y : list value;
  sc_fill : string; sc_mode : string; sc_line_color : string; sc_name : string
}.

(** The [x] argument of [px.line]: a sequence of values or a column name. *)
Inductive x_axis :=
| XValues (values : list value)
| XColumn (label : string).

(** A Plotly figure, as the arguments it was built from. *)
Record Figure := mk_figure {
  fig_frame : DataFrame;
  fig_x : x_axis;
  fig_y : string;
  fig_title : string;
  fig_scatters : list Scatter
}.

(** Does a list of labels hold the same label twice? *)
Fixpoint has_duplicates (labels : list string) : bool :=
  match labels with
  | [] => false
  | l :: rest => existsb (String.eqb l) rest || has_duplicates rest
  end.

(** [px.line(df, x=.., y=.., title=..)]; Plotly refuses a frame with
    repeated column labels and a column name the frame does not have. *)
Definition px_line (df : DataFrame) (x : x_axis) (y title : string)
  : outcome Figure :=
  let x_known := match x with
                 | XValues _ => true
                 | XColumn label => has_column label df
                 end in
  if has_duplicates (columns df) then
    Raise (Exn ValueError "Expected unique column names")
  else if negb x_known then
    Raise (Exn ValueError "Value of 'x' is not the name of a column in 'data_frame'.")
  else if negb (has_column y df) then
    Raise (Exn ValueError "Value of 'y' is not the name of a column in 'data_frame'.")
  else Return (mk_figure df x y title []).

Definition add_scatter (s : Scatter) (fig : Figure) : Figure :=
  mk_figure (fig_frame fig) (fig_x fig) (fig_y fig) (fig_title fig)
            (fig_scatters fig ++ [s]).

(** What a tab puts on the page. *)
Inductive widget :=
| WHeader (text : string)
| WSubheader (text : string)
| WWarning (text : string)
| WMarkdown (text : string)                    (* st.write of a string *)
| WColumns (n : nat)                           (* st.columns(n) *)
| WMetric (col : nat) (label value : string)   (* st.metric inside column col *)
| WPlotly (fig : Figure)                       (* st.plotly_chart *)
| WDataFrame (df : DataFrame)                  (* st.dataframe *)
| WFolium (m : FoliumMap).                     (* st_folium *)

Definition show (w : widget) : Out widget unit := out_emit w.

(** *** Lines 115-127: the Historical Trends tab *)
Definition historical_tab (historical_df : DataFrame) : Out widget unit :=
  (show (WHeader "Historical Weather Trends") ;;
   if negb (empty historical_df) && has_column "prcp" historical_df
      && has_column "tavg" historical_df
   then
     fig_rainfall <- out_lift (px_line historical_df
                                 (XValues (index historical_df)) "prcp"
                                 "Daily Rainfall in Jammu (mm)") ;;
     show (WPlotly fig_rainfall) ;;
     fig_temp <- out_lift (px_line historical_df
                             (XValues (index historical_df)) "tavg"
                             "Average Daily Temperature in Jammu (°C)") ;;
     show (WPlotly fig_temp)
   else
     show (WWarning "Historical data could not be loaded or is incomplete."))%out.

(** *** Lines 129-142: the Forecast tab *)
Definition forecast_tab (forecast_df : DataFrame) : Out widget unit :=
  (show (WHeader "Rainfall Forecast") ;;
   if negb (empty forecast_df) then
     fig_forecast <- out_lift (px_line forecast_df (XColumn "ds") "yhat"
                                 "15-Day Rainfall Forecast") ;;
     ds <- out_lift (getcol "ds" forecast_df) ;;
     lower <- out_lift (getcol "yhat_lower" forecast_df) ;;
     let fig_forecast :=
       add_scatter (mk_scatter ds lower "tonexty" "lines" "rgba(0,0,0,0)"
                               "Lower Bound") fig_forecast in
     ds <- out_lift (getcol "ds" forecast_df) ;;
     upper <- out_lift (getcol "yhat_upper" forecast_df) ;;
     let fig_forecast :=
       add_scatter (mk_scatter ds upper "tonexty" "lines" "rgba(0,0,0,0)"
                               "Upper Bound") fig_forecast in
     show (WPlotly fig_forecast) ;;
     show (WSubheader "Forecast Data") ;;
     selected <- out_lift (getitem ["ds"; "yhat"; "yhat_lower"; "yhat_upper"]
                                   forecast_df) ;;
     table <- out_lift (set_index "ds" (df_tail 15 selected)) ;;
     show (WDataFrame table)
   else
     show (WWarning "Forecast could not be generated. Check the historical data."))%out.

(** *** Lines 144-159: the Real-time Weather tab *)

(** What the model leaves to the Python runtime. *)
Record Runtime := mkRuntime {
  (** [str(v)] for a list or a dict *)
  repr_container : json -> string;
  (** [datetime.fromtimestamp(v).strftime('%Y-%m-%d %H:%M:%S')] *)
  fromtimestamp_text : json -> outcome string
}.

Definition TypeError (msg : string) : exn := Exn (OtherException "TypeError") msg.
Definition IndexError (msg : string) : exn := Exn (OtherException "IndexError") msg.
Definition AttributeError (msg : string) : exn :=
  Exn (OtherException "AttributeError") msg.

(** Truth value of a parsed JSON value. *)
Definition truthy (j : json) : bool :=
  match j with
  | JNull => false
  | JBool b => b
  | JInt z => negb (z =? 0)%Z
  | JFloat x => negb (String.eqb (float_repr x) "0.0"
                      || String.eqb (float_repr x) "-0.0")
  | JStr s => negb (String.eqb s "")
  | JList items => match items with [] => false | _ => true end
  | JDict fields => match fields with [] => false | _ => true end
  end.

(** [if real_time_data:] *)
Definition is_true (v : option json) : bool :=
  match v with
  | None => false
  | Some j => truthy j
  end.

(** [j[key]] for a string key (a parsed object holds each key once). *)
Definition item (j : json) (key : string) : outcome json :=
  match j with
  | JDict fields =>
      match find (fun p => String.eqb (fst p) key) fields with
      | Some p => Return (snd p)
      | None => Raise (Exn KeyError ("'" ++ key ++ "'"))
      end
  | JList _ => Raise (TypeError "list indices must be integers or slices, not str")
  | JStr _ => Raise (TypeError "string indices must be integers, not 'str'")
  | _ => Raise (TypeError "object is not subscriptable")
  end.

(** [j[0]] *)
Definition item0 (j : json) : outcome json :=
  match j with
  | JList (first :: _) => Return first
  | JList [] => Raise (IndexError "list index out of range")
  | JStr (String c _) => Return (JStr (String c ""))
  | JStr EmptyString => Raise (IndexError "string index out of range")
  | JDict _ => Raise (Exn KeyError "0")
  | _ => Raise (TypeError "object is not subscriptable")
  end.

Definition upper (c : ascii) : ascii :=
  let n := nat_of_ascii c in
  if (97 <=? n)%nat && (n <=? 122)%nat then ascii_of_nat (n - 32) else c.

Definition lower (c : ascii) : ascii :=
  let n := nat_of_ascii c in
  if (65 <=? n)%nat && (n <=? 90)%nat then ascii_of_nat (n + 32) else c.

Fixpoint map_chars (f : ascii -> ascii) (s : string) : string :=
  match s with
  | EmptyString => EmptyString
  | String c rest => String (f c) (map_chars f rest)
  end.

(** [s.capitalize()] on ASCII text, which is what the weather service
    sends: first letter upper case, the rest lower case. *)
Definition capitalize (s : string) : string :=
  match s with
  | EmptyString => EmptyString
  | String c rest => String (upper c) (map_chars lower rest)
  end.

(** [j.capitalize()] *)
Definition json_capitalize (j : json) : outcome string :=
  match j with
  | JStr s => Return (capitalize s)
  | _ => Raise (AttributeError "object has no attribute 'capitalize'")
  end.

(** A value inside an f-string. *)
Definition format (rt : Runtime) (j : json) : string :=
  match j with
  | JNull => "None"
  | JBool true => "True"
  | JBool false => "False"
  | JInt z => str_Z z
  | JFloat x => float_repr x
  | JStr s => s
  | JList _ | JDict _ => repr_container rt j
  end.

Definition real_time_tab (rt : Runtime) (real_time_data : option json)
  : Out widget unit :=
  (show (WHeader "Real-time Weather") ;;
   match real_time_data with
   | Some data =>
       if truthy data then
         show (WColumns 3) ;;
         main <- out_lift (item data "main") ;;
         temp <- out_lift (item main "temp") ;;
         show (WMetric 1 "Temperature" (format rt temp ++ " °C")) ;;
         main <- out_lift (item data "main") ;;
         humidity <- out_lift (item main "humidity") ;;
         show (WMetric 2 "Humidity" (format rt humidity ++ "%")) ;;
         wind <- out_lift (item data "wind") ;;
         speed <- out_lift (item wind "speed") ;;
         show (WMetric 3 "Wind Speed" (format rt speed ++ " m/s")) ;;
         weather <- out_lift (item data "weather") ;;
         first <- out_lift (item0 weather) ;;
         description <- out_lift (item first "description") ;;
         condition <- out_lift (json_capitalize description) ;;
         show (WMarkdown ("**Current Condition:** " ++ condition)) ;;
         dt <- out_lift (item data "dt") ;;
         updated <- out_lift (fromtimestamp_text rt dt) ;;
         show (WMarkdown ("**Last Updated:** " ++ updated))
       else
         show (WWarning "Real-time weather data could not be loaded. Please check your API key.")
   | None =>
       show (WWarning "Real-time weather data could not be loaded. Please check your API key.")
   end)%out.

(** *** Lines 161-186: the Risk Map tab *)

(** The loop of lines 176-184 over any list of hotspots. *)
Definition add_hotspots (hotspots : list hotspot) (m : FoliumMap) : FoliumMap :=
  fold_left (fun m h => add_to (hotspot_marker h) m) hotspots m.

Definition risk_map_tab : Out widget unit :=
  (show (WHeader "Disaster-Prone Areas & Risk Map") ;;
   let m := mk_map (JAMMU_LAT, JAMMU_LON) 11 [] in
   let m := add_hotspots landslide_hotspots m in
   show (WFolium m))%out.

(** *** The whole script *)

(** Lines 115-186. *)
Definition draw_tabs (rt : Runtime) (d : dashboard_data) : Out widget unit :=
  (historical_tab (historical_df d) ;;
   forecast_tab (forecast_df d) ;;
   real_time_tab rt (real_time_data d) ;;
   risk_map_tab)%out.

(** One run of [app.py]: the trace of the fetch stage, then the page.  A
    run that raises before the tabs draws nothing. *)
Definition app_py (rt : Runtime) (w : World)
  : list event * Out widget unit :=
  match fetch_data_for_all_tabs w with
  | (t, Return d) => (t, draw_tabs rt d)
  | (t, Raise e) => (t, ([], Raise e))
  end.

(** *** [get_data.py] *)

Module GetData.

Definition JAMMU_LAT : pyfloat := PyFloat "32.73".
Definition JAMMU_LON : pyfloat := PyFloat "74.86".

(** What the script does that is visible outside it. *)
Inductive action :=
| Printed (text : string)
| Fetched (location : Point) (start_date end_date : datetime)
| ToCsv (path : string) (df : DataFrame).

(** The script, in a world [w] and on a disk where [df.to_csv(path)] fails
    with [disk path df] (or succeeds when that is [None]). *)
Definition script (w : World) (disk : string -> DataFrame -> option exn)
  : Out action unit :=
  (let start := mk_datetime 2020 1 1 0 in
   let end_ := clock w in
   out_emit (Printed "Fetching historical data from Meteostat...") ;;
   out_try
     (let jammu := mkPoint JAMMU_LAT JAMMU_LON 327 in
      out_emit (Fetched jammu start end_) ;;
      df <- out_lift (meteostat w jammu start end_) ;;
      if negb (empty df) then
        out_emit (ToCsv "jammu_historical_weather.csv" df) ;;
        out_lift (match disk "jammu_historical_weather.csv" df with
                  | Some e => Raise e
                  | None => Return tt
                  end) ;;
        out_emit (Printed "Successfully saved data to jammu_historical_weather.csv")
      else
        out_emit (Printed "Meteostat returned no data. CSV file not created."))
     (fun _ => true)
     (fun e => out_emit (Printed ("An error occurred: " ++ exn_msg e))))%out.

End GetData.

(** *** Line 30: [@st.cache_data]

    [get_historical_data] above is the body of the function, which is
    what a call that misses the memo runs.  The decorated function keeps
    a memo keyed by the arguments: a returned frame is stored (a raised
    exception is not), and a later call with equal arguments gets the
    stored frame without running the body. *)

Record call_args := mk_args {
  arg_lat : pyfloat; arg_lon : pyfloat;
  arg_start : datetime; arg_end : datetime
}.

Definition pyfloat_eqb (a b : pyfloat) : bool :=
  String.eqb (float_repr a) (float_repr b).

Definition datetime_eqb (a b : datetime) : bool :=
  (dt_year a =? dt_year b)%Z && (dt_month a =? dt_month b)%Z
  && (dt_day a =? dt_day b)%Z && (dt_micros a =? dt_micros b)%Z.

Definition args_eqb (a b : call_args) : bool :=
  pyfloat_eqb (arg_lat a) (arg_lat b) && pyfloat_eqb (arg_lon a) (arg_lon b)
  && datetime_eqb (arg_start a) (arg_start b)
  && datetime_eqb (arg_end a) (arg_end b).

(** What the memo holds for a key: the returned frame and the Streamlit
    messages of the call that produced it. *)
Definition memo : Type :=
  list (call_args * (DataFrame * list (st_element * string))).

Fixpoint memo_lookup (key : call_args) (cache : memo)
  : option (DataFrame * list (st_element * string)) :=
  match cache with
  | [] => None
  | (k, v) :: rest => if args_eqb key k then Some v else memo_lookup key rest
  end.

Definition messages_of (t : list event) : list (st_element * string) :=
  flat_map (fun ev => match ev with
                      | EvStreamlit element text => [(element, text)]
                      | _ => []
                      end) t.

Definition replayed (messages : list (st_element * string)) : list event :=
  map (fun m => EvStreamlit (fst m) (snd m)) messages.

(** The decorated function: the outcome of the call and the memo after
    it.  Streamlit releases differ on whether a hit shows the recorded
    messages again; [replay] says which. *)
Definition cached_get_historical_data (replay : bool) (cache : memo)
    (lat lon : pyfloat) (start_date end_date : datetime) (w : World)
  : (list event * outcome DataFrame) * memo :=
  let key := mk_args lat lon start_date end_date in
  match memo_lookup key cache with
  | Some (df, messages) =>
      ((if replay then replayed messages else [], Return df), cache)
  | None =>
      let r := get_historical_data lat lon start_date end_date w in
      match result r with
      | Return df => (r, (key, (df, messages_of (trace r))) :: cache)
      | Raise _ => (r, cache)
      end
  end.


(** Row masks: wherever the first holds, so does the second. *)
Definition mask_le (a b : list bool) : Prop :=
  Forall2 (fun x y : bool => x = true -> y = true) a b.

(** *** More sample values *)

Module Samples2.

Definition utc : Runtime :=
  mkRuntime (fun _ => "{...}")
            (fun j => match j with
                      | JInt 1700000000 => Return "2023-11-14 22:13:20"
                      | _ => Raise (TypeError "an integer is required")
                      end).

Definition report : json :=
  JDict [("weather", JList [JDict [("description", JStr "light rain")]]);
         ("main", JDict [("temp", JFloat (PyFloat "31.2"));
                         ("humidity", JInt 40)]);
         ("wind", JDict [("speed", JFloat (PyFloat "3.6"))]);
         ("dt", JInt 1700000000)].

(** A frame whose index carries another name than [time]. *)
Definition dated_frame (n : nat) : DataFrame :=
  mkDataFrame (Some "date") (map Samples.day (seq 0 n))
    [("tavg", map (fun _ => Num (PyFloat "21.5")) (seq 0 n));
     ("prcp", map (fun _ => Num (PyFloat "0.0")) (seq 0 n))].

Definition disk_ok : string -> DataFrame -> option exn := fun _ _ => None.

Definition parse_error : exn :=
  Exn (OtherException "ParserError") "Error tokenizing data.".

(** Meteostat is down and the fallback file is damaged. *)
Definition damaged_csv : World :=
  mkWorld (Return "k3y") Samples.today
          (fun _ _ _ => Raise Samples.unreachable)
          (fun _ => Raise parse_error)
          (fun url => Return (Samples.ok_response url))
          (fun _ => Raise (Exn ValueError "not a timestamp"))
          (fun _ => None)
          (fun _ _ => Samples.flat_point).

(** Everything is reachable but the Stan optimiser fails. *)
Definition stan_down : World :=
  mkWorld (Return "k3y") Samples.today
          (fun _ _ _ => Return (Samples.daily_frame 31))
          (fun _ => Raise Samples.no_file)
          (fun url => Return (Samples.ok_response url))
          (fun _ => Raise (Exn ValueError "not a timestamp"))
          (fun _ => Some (Exn (OtherException "RuntimeError")
                              "Error during optimization!"))
          (fun _ _ => Samples.flat_point).


(** A frame with the same label on two columns. *)
Definition twin_frame : DataFrame :=
  mkDataFrame (Some "time") [Samples.day 0]
    [("prcp", [Num (PyFloat "0.0")]); ("tavg", [Num (PyFloat "21.5")]);
     ("tavg", [Num (PyFloat "21.5")])].

End Samples2.

(* ===================================================================== *)
(** ** Laws of the effect monad *)

Section MonadLaws.
Context {A B : Type}.
Variables (m : M A) (k : A -> M B) (w : World).

Lemma trace_bind :
  trace (bind m k w) =
  trace (m w) ++ match result (m w) with
                 | Return a => trace (k a w)
                 | Raise _ => []
                 end.
Proof.
  unfold bind, trace, result. destruct (m w) as [t [a | e]]; cbn.
  - destruct (k a w); reflexivity.
  - now rewrite app_nil_r.
Qed.

Lemma result_bind :
  result (bind m k w) =
  match result (m w) with
  | Return a => result (k a w)
  | Raise e => Raise e
  end.
Proof.
  unfold bind, result. destruct (m w) as [t [a | e]]; cbn.
  - destruct (k a w); reflexivity.
  - reflexivity.
Qed.
End MonadLaws.

Section TryLaws.
Context {A : Type}.
Variables (body : M A) (catches : exn -> bool) (handler : exn -> M A)
          (w : World).

Lemma trace_try_except :
  trace (try_except body catches handler w) =
  trace (body w) ++ match result (body w) with
                    | Raise e => if catches e then trace (handler e w) else []
                    | Return _ => []
                    end.
Proof.
  unfold try_except, trace, result. destruct (body w) as [t [a | e]]; cbn.
  - now rewrite app_nil_r.
  - destruct (catches e); cbn.
    + destruct (handler e w); reflexivity.
    + now rewrite app_nil_r.
Qed.

Lemma result_try_except :
  result (try_except body catches handler w) =
  match result (body w) with
  | Raise e => if catches e then result (handler e w) else Raise e
  | Return a => Return a
  end.
Proof.
  unfold try_except, result. destruct (body w) as [t [a | e]]; cbn.
  - reflexivity.
  - destruct (catches e); cbn; [destruct (handler e w)|]; reflexivity.
Qed.
End TryLaws.

Lemma count_app p t1 t2 : count p (t1 ++ t2) = count p t1 + count p t2.
Proof. unfold count. now rewrite filter_app, length_app. Qed.

Lemma count_none p t :
forallb (fun ev => negb (p ev)) t = true -> count p t = 0.
Proof.
unfold count. induction t as [| ev t IH]; cbn; [reflexivity |].
intros H. apply andb_prop in H as [Hev Ht].
destruct (p ev); [discriminate | auto].
Qed.

Lemma forallb_weaken (p q : event -> bool) t :
(forall ev, p ev = true -> q ev = true) ->
forallb p t = true -> forallb q t = true.
Proof.
intros Hpq. rewrite !forallb_forall. auto.
Qed.

(** *** [only] is compositional *)

Section Only.
Variable allowed : event -> bool.

Lemma only_ret {A} (a : A) : only allowed (ret a).
Proof. intros w. reflexivity. Qed.

Lemma only_raise {A} e : only allowed (@raise A e).
Proof. intros w. reflexivity. Qed.

Lemma only_ask {A} (f : World -> outcome A) : only allowed (ask f).
Proof. intros w. reflexivity. Qed.

Lemma only_lift {A} (o : outcome A) : only allowed (lift o).
Proof. intros w. reflexivity. Qed.

Lemma only_emit ev : allowed ev = true -> only allowed (emit ev).
Proof. intros H w. cbn. now rewrite H. Qed.

Lemma only_bind {A B} (m : M A) (k : A -> M B) :
  only allowed m -> (forall a, only allowed (k a)) -> only allowed (bind m k).
Proof.
  intros Hm Hk w. rewrite trace_bind, forallb_app, Hm. cbn.
  destruct (result (m w)); [apply Hk | reflexivity].
Qed.

Lemma only_try_except {A} (body : M A) catches handler :
  only allowed body -> (forall e, only allowed (handler e)) ->
  only allowed (try_except body catches handler).
Proof.
  intros Hb Hh w. rewrite trace_try_except, forallb_app, Hb. cbn.
  destruct (result (body w)); [reflexivity |].
  destruct (catches e); [apply Hh | reflexivity].
Qed.
End Only.

Ltac only_emit := apply only_emit; reflexivity.

(** Splits the code of a computation along its binds, branches and
  matches until every leaf is a primitive. *)
Ltac only_step :=
match goal with
| |- only _ (bind _ _) => apply only_bind; [| intros ?]
| |- only _ (try_except _ _ _) => apply only_try_except; [| intros ?]
| |- only _ (emit _) => only_emit
| |- only _ (st _ _) => only_emit
| |- only _ (ret _) => apply only_ret
| |- only _ (raise _) => apply only_raise
| |- only _ (ask _) => apply only_ask
| |- only _ (lift _) => apply only_lift
| |- only _ (if ?c then _ else _) => destruct c
| |- only _ (match ?x with _ => _ end) => destruct x
end.

Ltac only_solve := repeat only_step.

(* ===================================================================== *)
(** ** The historical fetch and its fallback *)

Lemma has_column_In name df : has_column name df = true <-> In name (columns df).
Proof.
  unfold has_column. rewrite existsb_exists. split.
  - intros [x [Hin Heq]]. apply String.eqb_eq in Heq. now subst.
  - intros Hin. exists name. split; [assumption | apply String.eqb_refl].
Qed.

(** The test of line 45, spelled out. *)
Lemma sufficient_spec df :
  sufficient df = true <->
  empty df = false /\ In "prcp" (columns df) /\ 30 < len (dropna df).
Proof.
  unfold sufficient. rewrite !andb_true_iff, negb_true_iff, has_column_In.
  rewrite Nat.ltb_lt. tauto.
Qed.

(** The fallback branch, run on its own. *)
Lemma fallback_branch_run w :
  try_except
    (bind (pd_read_csv fallback_csv 0 true) (fun df_fallback =>
     bind (st st_success "Successfully loaded data from local fallback CSV.")
          (fun _ => ret df_fallback)))
    is_FileNotFoundError
    (fun _ =>
       bind (st st_error "Fallback file 'jammu_historical_weather.csv' not found. Please ensure it exists.")
            (fun _ => ret new_DataFrame)) w
  = fallback_run w.
Proof.
  unfold fallback_run, try_except, pd_read_csv, bind, ask, emit, st, ret.
  destruct (csv_files w fallback_csv) as [d | ex]; cbn; [reflexivity |].
  destruct (is_FileNotFoundError ex); reflexivity.
Qed.

Lemma fallback_run_reads w :
  In (EvReadCsv fallback_csv 0 true) (trace (fallback_run w)).
Proof.
  unfold fallback_run.
  destruct (csv_files w fallback_csv) as [d | ex];
    [| destruct (is_FileNotFoundError ex)]; cbn; tauto.
Qed.

Lemma fallback_run_count w : count is_read_csv (trace (fallback_run w)) = 1.
Proof.
  unfold fallback_run.
  destruct (csv_files w fallback_csv) as [d | ex];
    [| destruct (is_FileNotFoundError ex)]; reflexivity.
Qed.

(** One run of [get_historical_data], branch by branch. *)
Lemma get_historical_data_run w lat lon start_date end_date :
  get_historical_data lat lon start_date end_date w =
  let info := EvStreamlit st_info "Fetching historical data from Meteostat..." in
  let fetch := EvMeteostat (mkPoint lat lon 327) start_date end_date in
  match meteostat w (mkPoint lat lon 327) start_date end_date with
  | Return df =>
      if sufficient df then
        ([info; fetch;
          EvStreamlit st_success "Successfully fetched historical data from Meteostat."],
         Return df)
      else
        (info :: fetch ::
         EvStreamlit st_warning "Meteostat API returned insufficient data. Using a fallback dataset."
         :: trace (fallback_run w),
         result (fallback_run w))
  | Raise ex =>
      (info :: fetch ::
       EvStreamlit st_error ("Error fetching data from Meteostat: " ++ exn_msg ex
                             ++ ". Using a fallback dataset.")
       :: trace (fallback_run w),
       result (fallback_run w))
  end.
Proof.
  unfold get_historical_data.
  unfold bind at 1. cbn [st emit].
  unfold bind at 1.
  unfold try_except at 1, Daily_fetch.
  unfold bind at 1. unfold bind at 1. cbn [emit ask].
  destruct (meteostat w (mkPoint lat lon 327) start_date end_date) as [df | ex].
  - destruct (sufficient df); cbn.
    + reflexivity.
    + change "jammu_historical_weather.csv" with fallback_csv.
      rewrite fallback_branch_run. destruct (fallback_run w); reflexivity.
  - cbn. change "jammu_historical_weather.csv" with fallback_csv.
    rewrite fallback_branch_run. destruct (fallback_run w); reflexivity.
Qed.

Ltac historical_cases w :=
  rewrite get_historical_data_run; unfold fetch_failed, fallback_run in *;
  cbv zeta;
  repeat match goal with
  | |- context [match meteostat w ?p ?s ?e with _ => _ end] =>
      let Hm := fresh "Hfetch" in destruct (meteostat w p s e) eqn:Hm
  | |- context [if sufficient ?df then _ else _] =>
      let Hs := fresh "Hsuff" in destruct (sufficient df) eqn:Hs
  | |- context [match csv_files w ?p with _ => _ end] =>
      let Hc := fresh "Hcsv" in destruct (csv_files w p) eqn:Hc
  | |- context [if is_FileNotFoundError ?ex then _ else _] =>
      let Hf := fresh "Hnf" in destruct (is_FileNotFoundError ex) eqn:Hf
  end;
  cbn [trace result fst snd].

(** C1, as amended.  Sufficient Meteostat data are returned as fetched and
    the fallback file is not read.  When the fetch raises or its data are
    insufficient, [jammu_historical_weather.csv] is read; the frame read
    from it is returned when the read succeeds, and an empty frame is
    returned when the file is not found. *)
Theorem historical_data_source w lat lon start_date end_date :
  let r := get_historical_data lat lon start_date end_date w in
  (forall df,
      meteostat w (mkPoint lat lon 327) start_date end_date = Return df ->
      sufficient df = true ->
      result r = Return df /\ count is_read_csv (trace r) = 0) /\
  (fetch_failed w lat lon start_date end_date ->
      In (EvReadCsv fallback_csv 0 true) (trace r) /\
      (forall d, csv_files w fallback_csv = Return d -> result r = Return d) /\
      (forall ex, csv_files w fallback_csv = Raise ex ->
                  is_FileNotFoundError ex = true ->
                  result r = Return new_DataFrame)).
Proof.
  intros r. subst r. split.
  - intros df Hdf Hok. historical_cases w; try congruence.
    inversion Hdf; subst. split; reflexivity.
  - intros Hfail. historical_cases w; try congruence;
      (split; [cbn; tauto |]); split; intros; congruence.
Qed.

Lemma historical_data_source_witness :
  result (get_historical_data JAMMU_LAT JAMMU_LON Samples.since Samples.today
                              (Samples.online 31 40))
    = Return (Samples.daily_frame 31)
  /\ result (get_historical_data JAMMU_LAT JAMMU_LON Samples.since Samples.today
                                 (Samples.fallback_only 40))
    = Return (Samples.daily_frame 40).
Proof.
  split.
  - destruct (historical_data_source (Samples.online 31 40) JAMMU_LAT JAMMU_LON
                Samples.since Samples.today) as [Hok _].
    apply (Hok (Samples.daily_frame 31)); reflexivity.
  - destruct (historical_data_source (Samples.fallback_only 40) JAMMU_LAT
                JAMMU_LON Samples.since Samples.today) as [_ Hfall].
    apply (Hfall I). reflexivity.
Defined.

(** C1 as stated fails: with Meteostat unreachable and no fallback file,
    no dataset is read and an empty frame is returned. *)
Lemma fallback_dataset_missing :
  let r := get_historical_data JAMMU_LAT JAMMU_LON Samples.since Samples.today
                               Samples.offline in
  fetch_failed Samples.offline JAMMU_LAT JAMMU_LON Samples.since Samples.today /\
  result r = Return new_DataFrame /\
  ~ (exists d, csv_files Samples.offline fallback_csv = Return d /\
               result r = Return d).
Proof.
  cbv zeta. split; [exact I |]. split; [reflexivity |].
  intros [d [Hcsv _]]. discriminate Hcsv.
Qed.

(** C9.  Fetched data are returned, and the fallback is not taken, exactly
    when the frame is non-empty, has a [prcp] column and keeps strictly
    more than 30 rows after [dropna]; otherwise the fallback file is read. *)
Theorem sufficiency_test w lat lon start_date end_date df :
  meteostat w (mkPoint lat lon 327) start_date end_date = Return df ->
  let r := get_historical_data lat lon start_date end_date w in
  let enough :=
    empty df = false /\ In "prcp" (columns df) /\ 30 < len (dropna df) in
  (enough -> result r = Return df /\ count is_read_csv (trace r) = 0) /\
  (~ enough -> In (EvReadCsv fallback_csv 0 true) (trace r) /\
               result r = result (fallback_run w)) /\
  (count is_read_csv (trace r) = 0 <-> enough).
Proof.
  intros Hdf r enough. subst r enough.
  rewrite <- sufficient_spec.
  rewrite get_historical_data_run, Hdf. cbv zeta.
  destruct (sufficient df) eqn:Hs; cbn [trace result fst snd].
  - repeat split; intros; try reflexivity; congruence.
  - repeat split; intros; try congruence; try (cbn; tauto).
    + right. right. right. apply fallback_run_reads.
    + pose proof (fallback_run_count w) as Hone.
      unfold count in *. cbn [filter is_read_csv] in *. lia.
Qed.

Lemma sufficiency_test_witness :
  count is_read_csv
    (trace (get_historical_data JAMMU_LAT JAMMU_LON Samples.since Samples.today
                                (Samples.online 31 40))) = 0
  /\ In (EvReadCsv fallback_csv 0 true)
        (trace (get_historical_data JAMMU_LAT JAMMU_LON Samples.since
                                    Samples.today (Samples.online 30 40))).
Proof.
  split.
  - apply (sufficiency_test (Samples.online 31 40) JAMMU_LAT JAMMU_LON
             Samples.since Samples.today (Samples.daily_frame 31) eq_refl).
    repeat split; [apply has_column_In; reflexivity | vm_compute; lia].
  - apply (sufficiency_test (Samples.online 30 40) JAMMU_LAT JAMMU_LON
             Samples.since Samples.today (Samples.daily_frame 30) eq_refl).
    intros [_ [_ H]]. vm_compute in H. lia.
Defined.

Lemma pyfloat_eqb_spec a b : pyfloat_eqb a b = true <-> a = b.
Proof.
  unfold pyfloat_eqb. rewrite String.eqb_eq. destruct a, b; cbn.
  split; congruence.
Qed.

Lemma datetime_eqb_spec a b : datetime_eqb a b = true <-> a = b.
Proof.
  unfold datetime_eqb. rewrite !andb_true_iff, !Z.eqb_eq.
  destruct a, b; cbn. split; [intros [[[-> ->] ->] ->] | intros H; inversion H];
    auto.
Qed.

Lemma args_eqb_spec a b : args_eqb a b = true <-> a = b.
Proof.
  unfold args_eqb.
  rewrite !andb_true_iff, !pyfloat_eqb_spec, !datetime_eqb_spec.
  destruct a, b; cbn. split; [intros [[[-> ->] ->] ->] | intros H; inversion H];
    auto.
Qed.

Lemma replayed_count p messages :
  (forall element text, p (EvStreamlit element text) = false) ->
  count p (replayed messages) = 0.
Proof.
  intros Hp. unfold count, replayed.
  induction messages as [| m messages IH]; cbn; [reflexivity |].
  now rewrite Hp.
Qed.

Lemma cached_miss replay cache w lat lon start_date end_date :
  memo_lookup (mk_args lat lon start_date end_date) cache = None ->
  fst (cached_get_historical_data replay cache lat lon start_date end_date w)
    = get_historical_data lat lon start_date end_date w /\
  snd (cached_get_historical_data replay cache lat lon start_date end_date w)
    = match result (get_historical_data lat lon start_date end_date w) with
      | Return df =>
          (mk_args lat lon start_date end_date,
           (df, messages_of
                  (trace (get_historical_data lat lon start_date end_date w))))
          :: cache
      | Raise _ => cache
      end.
Proof.
  intros Hmiss. unfold cached_get_historical_data. cbv zeta. rewrite Hmiss.
  destruct (result (get_historical_data lat lon start_date end_date w));
    split; reflexivity.
Qed.

Lemma cached_hit replay cache w lat lon start_date end_date df messages :
  memo_lookup (mk_args lat lon start_date end_date) cache
    = Some (df, messages) ->
  cached_get_historical_data replay cache lat lon start_date end_date w
    = ((if replay then replayed messages else [], Return df), cache).
Proof.
  intros Hhit. unfold cached_get_historical_data. cbv zeta. now rewrite Hhit.
Qed.

(** C4, as amended.  A call that misses the memo runs one try/fallback
    step: exactly one Meteostat attempt, at most one read of the fallback
    file and exactly one when the fetch failed; if the file is missing too
    the call ends there with an empty frame, and nothing follows the
    failed read but the error message.  The memo of line 30 is the state
    the function keeps: a returned frame is stored under the arguments of
    the call, a raised exception stores nothing, other keys are left
    alone, and a call that hits the memo returns the stored frame with no
    Meteostat attempt and no file read. *)
Theorem try_fallback_and_memo replay cache w lat lon start_date end_date :
  let key := mk_args lat lon start_date end_date in
  let call := cached_get_historical_data replay cache lat lon start_date
                                         end_date w in
  let r := fst call in
  (memo_lookup key cache = None ->
     count is_meteostat (trace r) = 1 /\
     count is_read_csv (trace r) <= 1 /\
     (fetch_failed w lat lon start_date end_date ->
        count is_read_csv (trace r) = 1) /\
     (fetch_failed w lat lon start_date end_date ->
      forall ex, csv_files w fallback_csv = Raise ex ->
                 is_FileNotFoundError ex = true ->
        result r = Return new_DataFrame /\
        exists level text,
          trace r =
          [EvStreamlit st_info "Fetching historical data from Meteostat...";
           EvMeteostat (mkPoint lat lon 327) start_date end_date;
           EvStreamlit level text;
           EvReadCsv fallback_csv 0 true;
           EvStreamlit st_error "Fallback file 'jammu_historical_weather.csv' not found. Please ensure it exists."]) /\
     (forall df, result r = Return df ->
        exists messages, memo_lookup key (snd call) = Some (df, messages)) /\
     (forall ex, result r = Raise ex -> snd call = cache)) /\
  (forall df messages, memo_lookup key cache = Some (df, messages) ->
     result r = Return df /\
     count is_meteostat (trace r) = 0 /\
     count is_read_csv (trace r) = 0 /\
     snd call = cache) /\
  (forall other, other <> key ->
     memo_lookup other (snd call) = memo_lookup other cache).
Proof.
  cbv zeta.
  destruct (memo_lookup (mk_args lat lon start_date end_date) cache)
    as [[stored messages] |] eqn:Hlookup.
  - rewrite (cached_hit replay cache w _ _ _ _ _ _ Hlookup).
    split; [discriminate |]. split.
    + intros df msgs H. inversion H; subst. cbn [fst snd result trace].
      repeat split; destruct replay; try reflexivity;
        apply replayed_count; reflexivity.
    + intros other _. reflexivity.
  - destruct (cached_miss replay cache w _ _ _ _ Hlookup) as [-> ->].
    split; [intros _ | split; [discriminate |]].
    + split; [| split; [| split; [| split; [| split]]]].
      * historical_cases w; reflexivity.
      * historical_cases w; cbn; lia.
      * intros Hfail. historical_cases w; try reflexivity; congruence.
      * intros Hfail ex Hcsv Hnf. revert Hfail.
        historical_cases w; intros; try congruence;
          (split; [reflexivity | eauto]).
      * intros df Hdf. rewrite Hdf. cbn [memo_lookup].
        assert (Hrefl : args_eqb (mk_args lat lon start_date end_date)
                                 (mk_args lat lon start_date end_date) = true)
          by now apply args_eqb_spec.
        rewrite Hrefl. eauto.
      * intros ex Hex. rewrite Hex. reflexivity.
    + intros other Hother.
      destruct (result (get_historical_data lat lon start_date end_date w));
        [| reflexivity].
      cbn [memo_lookup].
      destruct (args_eqb other (mk_args lat lon start_date end_date)) eqn:Heq;
        [| reflexivity].
      apply args_eqb_spec in Heq. contradiction.
Qed.

Lemma try_fallback_and_memo_witness :
  result (fst (cached_get_historical_data false [] JAMMU_LAT JAMMU_LON
                 Samples.since Samples.today Samples.offline))
  = Return new_DataFrame
  /\ count is_meteostat
       (trace (fst (cached_get_historical_data true
                      [(mk_args JAMMU_LAT JAMMU_LON Samples.since Samples.today,
                        (Samples.daily_frame 40,
                         [(st_success, "Successfully loaded data from local fallback CSV.")]))]
                      JAMMU_LAT JAMMU_LON Samples.since Samples.today
                      Samples.offline))) = 0.
Proof.
  split.
  - destruct (try_fallback_and_memo false [] Samples.offline JAMMU_LAT
                JAMMU_LON Samples.since Samples.today) as [Hmiss _].
    destruct (Hmiss eq_refl) as [_ [_ [_ [Hmissing _]]]].
    apply (Hmissing I Samples.no_file); reflexivity.
  - destruct (try_fallback_and_memo true
                [(mk_args JAMMU_LAT JAMMU_LON Samples.since Samples.today,
                  (Samples.daily_frame 40,
                   [(st_success, "Successfully loaded data from local fallback CSV.")]))]
                Samples.offline JAMMU_LAT JAMMU_LON Samples.since
                Samples.today) as [_ [Hhit _]].
    apply (Hhit _ _ eq_refl).
Defined.

(** C4 as stated fails: the function does keep state.  After a call that
    found Meteostat and the fallback file missing, the same call made
    again when Meteostat is back attempts no fetch at all and returns the
    memoised empty frame, where the body would fetch once and return the
    Meteostat data. *)
Lemma memo_hit_skips_the_fetch :
  let first := cached_get_historical_data false [] JAMMU_LAT JAMMU_LON
                 Samples.since Samples.today Samples.offline in
  let again := cached_get_historical_data false (snd first) JAMMU_LAT
                 JAMMU_LON Samples.since Samples.today (Samples.online 31 40) in
  count is_meteostat (trace (fst first)) = 1 /\
  result (fst first) = Return new_DataFrame /\
  count is_meteostat (trace (fst again)) = 0 /\
  result (fst again) = Return new_DataFrame /\
  result (get_historical_data JAMMU_LAT JAMMU_LON Samples.since Samples.today
                              (Samples.online 31 40))
  = Return (Samples.daily_frame 31).
Proof.
  cbv zeta. repeat split; vm_compute; reflexivity.
Qed.

(* ===================================================================== *)
(** ** The real-time fetch *)

Lemma falsy_Some key : falsy (Some key) = false <-> key <> "".
Proof.
  unfold falsy. destruct (String.eqb_spec key ""); split; congruence.
Qed.

Lemma raise_for_status_raises r e :
  raise_for_status r = Raise e -> is_RequestException e = true.
Proof.
  unfold raise_for_status.
  destruct ((400 <=? status_code r)%Z && (status_code r <? 500)%Z);
    [intros H; inversion H; reflexivity |].
  destruct ((500 <=? status_code r)%Z && (status_code r <? 600)%Z);
    [intros H; inversion H; reflexivity | discriminate].
Qed.

Lemma raise_for_status_ok r :
  ~ (400 <= status_code r < 600)%Z -> raise_for_status r = Return tt.
Proof.
  intros Hok. unfold raise_for_status.
  destruct ((400 <=? status_code r)%Z && (status_code r <? 500)%Z) eqn:H4;
    [apply andb_prop in H4 as [? ?]; lia |].
  destruct ((500 <=? status_code r)%Z && (status_code r <? 600)%Z) eqn:H5;
    [apply andb_prop in H5 as [? ?]; lia | reflexivity].
Qed.

Lemma raise_for_status_error r :
  (400 <= status_code r < 600)%Z -> exists e, raise_for_status r = Raise e.
Proof.
  intros Herr. unfold raise_for_status.
  destruct ((400 <=? status_code r)%Z && (status_code r <? 500)%Z) eqn:H4;
    [eauto |].
  destruct ((500 <=? status_code r)%Z && (status_code r <? 600)%Z) eqn:H5;
    [eauto |].
  apply andb_false_iff in H4, H5. lia.
Qed.

(** One run of [get_real_time_data] with a usable key, branch by branch:
    the request is sent once; a [RequestException] from any of the three
    steps is reported and turned into [None]. *)
Lemma get_real_time_data_run w key lat lon :
  key <> "" ->
  get_real_time_data (Some key) lat lon w =
  let url := weather_url key lat lon in
  let get := EvHttpGet url 10 in
  let handled (e : exn) : list event * outcome (option json) :=
    if is_RequestException e then
      ([get; EvStreamlit st_error
               ("Error fetching real-time weather data: " ++ exn_msg e)],
       Return None)
    else ([get], Raise e) in
  match http w url with
  | Raise e => handled e
  | Return response =>
      match raise_for_status response with
      | Raise e => handled e
      | Return _ =>
          match json_body response with
          | Raise e => handled e
          | Return body => ([get], Return (Some body))
          end
      end
  end.
Proof.
  intros Hkey. apply falsy_Some in Hkey.
  unfold get_real_time_data. rewrite Hkey. cbn [str_key]. cbv zeta.
  unfold try_except, requests_get, bind, ask, emit, lift, st, ret.
  destruct (http w (weather_url key lat lon)) as [response | e]; cbn.
  - destruct (raise_for_status response) as [[] | e]; cbn.
    + destruct (json_body response) as [body | e]; cbn; [reflexivity |].
      destruct (is_RequestException e); reflexivity.
    + destruct (is_RequestException e); reflexivity.
  - destruct (is_RequestException e); reflexivity.
Qed.

Ltac real_time_cases w :=
  cbv zeta;
  repeat match goal with
  | |- context [match http w ?u with _ => _ end] =>
      let Hh := fresh "Hhttp" in destruct (http w u) eqn:Hh
  | |- context [match raise_for_status ?r with _ => _ end] =>
      let Hs := fresh "Hstatus" in destruct (raise_for_status r) eqn:Hs
  | |- context [match json_body ?r with _ => _ end] =>
      let Hj := fresh "Hjson" in destruct (json_body r) eqn:Hj
  | |- context [if is_RequestException ?e then _ else _] =>
      let Hr := fresh "Hreq" in destruct (is_RequestException e) eqn:Hr
  end;
  cbn [trace result fst snd].

(** C6.  With a non-empty key exactly one GET is issued, with a ten second
    timeout, to the current-weather endpoint carrying the given latitude,
    longitude and key and [units=metric]; when the response has no error
    status, what [response.json()] parses from the body is returned. *)
Theorem real_time_request w key lat lon :
  key <> "" ->
  let r := get_real_time_data (Some key) lat lon w in
  let url := ("https://api.openweathermap.org/data/2.5/weather?lat="
              ++ float_repr lat ++ "&lon=" ++ float_repr lon
              ++ "&appid=" ++ key ++ "&units=metric")%string in
  filter is_http_get (trace r) = [EvHttpGet url 10] /\
  count is_fetch (trace r) = 1 /\
  (forall response body,
      http w url = Return response ->
      ~ (400 <= status_code response < 600)%Z ->
      json_body response = Return body ->
      result r = Return (Some body)).
Proof.
  intros Hkey. cbv zeta. fold (weather_url key lat lon).
  rewrite (get_real_time_data_run w key lat lon Hkey). cbv zeta.
  repeat split.
  - real_time_cases w; reflexivity.
  - real_time_cases w; reflexivity.
  - intros response body Hget Hok Hbody.
    rewrite Hget, (raise_for_status_ok response Hok), Hbody. reflexivity.
Qed.

Lemma real_time_request_witness :
  result (get_real_time_data (Some "k3y") JAMMU_LAT JAMMU_LON
                             (Samples.online 31 40))
  = Return (Some Samples.current_weather).
Proof.
  assert (Hkey : "k3y" <> "") by discriminate.
  destruct (real_time_request (Samples.online 31 40) "k3y" JAMMU_LAT JAMMU_LON
              Hkey) as [_ [_ Hbody]].
  apply (Hbody (Samples.ok_response (weather_url "k3y" JAMMU_LAT JAMMU_LON)));
    [reflexivity | cbn; lia | reflexivity].
Defined.

(* ===================================================================== *)
(** ** Facts about the pandas operations *)

Lemma keep_In {A} (m : list bool) (l : list A) v :
  In v (keep m l) ->
  exists i, nth_error m i = Some true /\ nth_error l i = Some v.
Proof.
  revert l. induction m as [| b m IH]; intros [| x l] Hin; cbn in Hin;
    try contradiction.
  destruct b.
  - destruct Hin as [-> | Hin].
    + exists 0. split; reflexivity.
    + destruct (IH l Hin) as [i [Hm Hl]]. exists (S i). split; assumption.
  - destruct (IH l Hin) as [i [Hm Hl]]. exists (S i). split; assumption.
Qed.

Lemma zip_and_true a b i :
  nth_error (zip_and a b) i = Some true ->
  nth_error a i = Some true /\ nth_error b i = Some true.
Proof.
  revert b i. induction a as [| x a IH]; intros [| y b] i H;
    try (destruct i; discriminate).
  destruct i as [| i]; cbn in *.
  - inversion H as [Hxy]. apply andb_prop in Hxy as [-> ->]. now split.
  - now apply IH.
Qed.

(** A row that [complete_rows] marks has a value in every column. *)
Lemma complete_rows_sound df i c v :
  nth_error (complete_rows df) i = Some true ->
  In c (series df) -> nth_error (snd c) i = Some v -> notna v = true.
Proof.
  unfold complete_rows. induction (series df) as [| c0 cols IH]; cbn;
    intros Hrow Hin Hv; [contradiction |].
  apply zip_and_true in Hrow as [Hc0 Hrest].
  destruct Hin as [-> | Hin]; [| now apply IH].
  rewrite nth_error_map, Hv in Hc0. cbn in Hc0. congruence.
Qed.

(** After [dropna] no cell is missing. *)
Lemma dropna_complete df c v :
  In c (series (dropna df)) -> In v (snd c) -> notna v = true.
Proof.
  unfold dropna. cbn [series]. rewrite in_map_iff.
  intros [c0 [<- Hc0]] Hv. cbn [snd] in Hv.
  apply keep_In in Hv as [i [Hrow Hcell]].
  eapply complete_rows_sound; eassumption.
Qed.

Lemma dropna_columns df : columns (dropna df) = columns df.
Proof.
  unfold columns, dropna. cbn [series]. rewrite map_map. reflexivity.
Qed.

(** The labels of [df[[l1, ..., ln]]] are among the requested ones, and
    every requested label is there. *)
Lemma getitem_columns labels df d :
  getitem labels df = Return d ->
  (forall l, In l (columns d) -> In l labels) /\
  (forall l, In l labels -> In l (columns d)).
Proof.
  unfold getitem.
  destruct (find (fun l => negb (has_column l df)) labels) eqn:Hfind;
    [discriminate |].
  intros H. inversion H; subst; clear H. unfold columns. cbn [series]. split.
  - intros l. rewrite in_map_iff. intros [c [<- Hc]].
    apply in_flat_map in Hc as [l' [Hl' Hc]].
    apply filter_In in Hc as [_ Heq]. apply String.eqb_eq in Heq. now subst.
  - intros l Hl. pose proof (find_none _ _ Hfind l Hl) as Hhas. cbn in Hhas.
    apply negb_false_iff, has_column_In in Hhas.
    unfold columns in Hhas. apply in_map_iff in Hhas as [c [Hfst Hc]].
    apply in_map_iff. exists c. split; [assumption |].
    apply in_flat_map. exists l. split; [assumption |].
    apply filter_In. split; [assumption |]. now apply String.eqb_eq.
Qed.

(** What line 86 does to a label. *)
Lemma relabel_time_prcp l :
  relabel [("time", "ds"); ("prcp", "y")] l =
  if String.eqb "time" l then "ds" else if String.eqb "prcp" l then "y" else l.
Proof.
  unfold relabel. cbn [find fst snd].
  destruct (String.eqb "time" l); [reflexivity |].
  destruct (String.eqb "prcp" l); reflexivity.
Qed.

Lemma relabel_injective a b :
  a <> "ds" -> a <> "y" -> b <> "ds" -> b <> "y" ->
  relabel [("time", "ds"); ("prcp", "y")] a
    = relabel [("time", "ds"); ("prcp", "y")] b ->
  a = b.
Proof.
  rewrite !relabel_time_prcp. intros Ha1 Ha2 Hb1 Hb2.
  destruct (String.eqb_spec "time" a), (String.eqb_spec "time" b),
           (String.eqb_spec "prcp" a), (String.eqb_spec "prcp" b);
    subst; intros H; try congruence; try discriminate.
Qed.

Lemma relabel_NoDup labels :
  NoDup labels -> ~ In "ds" labels -> ~ In "y" labels ->
  NoDup (map (relabel [("time", "ds"); ("prcp", "y")]) labels).
Proof.
  induction 1 as [| a l Hnotin Hnodup IH]; cbn; intros Hds Hy;
    [constructor |].
  constructor.
  - rewrite in_map_iff. intros [b [Heq Hb]].
    apply relabel_injective in Heq; try tauto.
    + subst. contradiction.
    + intros ->. tauto.
    + intros ->. tauto.
  - apply IH; tauto.
Qed.

(** With distinct labels, selecting one label yields one column. *)
Lemma filter_unique_label {X} (l : list (string * X)) n :
  NoDup (map fst l) -> In n (map fst l) ->
  map fst (filter (fun c => String.eqb (fst c) n) l) = [n].
Proof.
  induction l as [| [a x] l IH]; cbn; intros Hnodup Hin; [contradiction |].
  inversion Hnodup as [| ? ? Hnotin Hrest]; subst.
  destruct (String.eqb_spec a n) as [-> | Hne].
  - cbn. f_equal.
    assert (Hnone : forall c, In c l -> String.eqb (fst c) n = false).
    { intros c Hc. apply String.eqb_neq. intros <-.
      apply Hnotin, in_map, Hc. }
    clear -Hnone. induction l as [| c l IHl]; [reflexivity |].
    cbn. rewrite (Hnone c (or_introl eq_refl)). apply IHl.
    intros c' Hc'. apply Hnone. now right.
  - apply IH; [assumption |]. destruct Hin; [contradiction | assumption].
Qed.

(* ===================================================================== *)
(** ** The frame handed to Prophet *)

(** Whatever the historical frame looks like, the prepared frame carries
    only [ds] and [y] columns, both present, and has no missing cell. *)
Lemma prepare_shape df p :
  prepare df = Return p ->
  (forall l, In l (columns p) -> l = "ds" \/ l = "y") /\
  In "ds" (columns p) /\ In "y" (columns p) /\
  (forall c v, In c (series p) -> In v (snd c) -> notna v = true).
Proof.
  unfold prepare. destruct (reset_index df) as [d | e]; [| discriminate].
  destruct (getitem ["ds"; "y"] _) as [d' | e] eqn:Hget; [| discriminate].
  intros H. inversion H; subst; clear H.
  apply getitem_columns in Hget as [Hsub Hsup].
  rewrite dropna_columns. repeat split.
  - intros l Hl. apply Hsub in Hl. cbn in Hl. intuition.
  - apply Hsup. cbn. tauto.
  - apply Hsup. cbn. tauto.
  - apply dropna_complete.
Qed.

Lemma reset_index_columns df d :
  reset_index df = Return d ->
  exists label,
    columns d = label :: columns df /\ ~ In label (columns df) /\
    (index_name df = Some label \/ label = "index" \/ label = "level_0").
Proof.
  unfold reset_index.
  set (label := match index_name df with
                | Some n => n
                | None => if has_column "index" df then "level_0" else "index"
                end).
  destruct (has_column label df) eqn:Hfresh; [discriminate |].
  intros H. inversion H; subst d; clear H. exists label. repeat split.
  - intros Hin. apply has_column_In in Hin. congruence.
  - subst label. destruct (index_name df); [now left | right].
    destruct (has_column "index" df); tauto.
Qed.

Lemma rename_columns mapping df :
  columns (rename mapping df) = map (relabel mapping) (columns df).
Proof. unfold columns, rename. cbn [series]. now rewrite !map_map. Qed.

Lemma getitem_unique_labels df d :
  getitem ["ds"; "y"] df = Return d -> NoDup (columns df) ->
  columns d = ["ds"; "y"].
Proof.
  intros Hget Hnodup.
  pose proof (getitem_columns _ _ _ Hget) as [_ Hsup].
  assert (Hin : forall l, In l ["ds"; "y"] -> In l (columns df)).
  { intros l Hl. unfold getitem in Hget.
    destruct (find (fun l => negb (has_column l df)) ["ds"; "y"]) eqn:Hfind;
      [discriminate |].
    pose proof (find_none _ _ Hfind l Hl) as Hhas. cbn beta in Hhas.
    now apply negb_false_iff, has_column_In in Hhas. }
  unfold getitem in Hget.
  destruct (find _ ["ds"; "y"]); [discriminate |].
  inversion Hget; subst d; clear Hget.
  unfold columns in *. cbn [series flat_map].
  rewrite app_nil_r, map_app.
  rewrite !filter_unique_label; try assumption; try reflexivity;
    apply Hin; cbn; tauto.
Qed.

(** On a frame with distinct labels that does not already use [ds] or [y]
    (Meteostat's schema is one), the prepared frame has exactly the two
    columns [ds] and [y], in this order. *)
Lemma prepare_two_columns df p :
  prepare df = Return p ->
  NoDup (columns df) -> ~ In "ds" (columns df) -> ~ In "y" (columns df) ->
  index_name df <> Some "ds" -> index_name df <> Some "y" ->
  columns p = ["ds"; "y"].
Proof.
  unfold prepare. intros Hprep Hnodup Hds Hy Hids Hiy.
  destruct (reset_index df) as [d | e] eqn:Hreset; [| discriminate].
  destruct (getitem ["ds"; "y"] _) as [d' | e] eqn:Hget; [| discriminate].
  inversion Hprep; subst p; clear Hprep. rewrite dropna_columns.
  apply reset_index_columns in Hreset as [label [Hcols [Hfresh Hlabel]]].
  apply getitem_unique_labels in Hget; [assumption |].
  rewrite rename_columns, Hcols. apply relabel_NoDup.
  - now constructor.
  - cbn. intros [-> | Hin]; [| contradiction].
    destruct Hlabel as [H | [H | H]]; congruence.
  - cbn. intros [-> | Hin]; [| contradiction].
    destruct Hlabel as [H | [H | H]]; congruence.
Qed.

(* ===================================================================== *)
(** ** The forecast *)

Lemma traverse_stamps w dates :
  traverse (to_datetime w) (map Stamp dates) = Return dates.
Proof.
  induction dates as [| d dates IH]; cbn; [reflexivity |].
  now rewrite IH.
Qed.

Lemma RangeIndex_length n : length (RangeIndex n) = n.
Proof. unfold RangeIndex. now rewrite length_map, length_seq. Qed.

Lemma future_dates_length last_date periods :
  length (future_dates last_date periods) = periods.
Proof. unfold future_dates. now rewrite length_map, length_seq. Qed.

(** The calls into Prophet, branch by branch. *)
Lemma run_prophet_run w p :
  run_prophet p w =
  let init := EvProphetInit true false true in
  let fitted := EvProphetFit p in
  if negb (has_column "ds" p && has_column "y" p) then
    ([init; fitted],
     Raise (Exn ValueError
                "Dataframe must have columns 'ds' and 'y' with the dates and values respectively."))
  else if (length (filter notna (column "y" p)) <? 2)%nat then
    ([init; fitted], Raise (Exn ValueError "Dataframe has less than 2 non-NaN rows."))
  else
    match traverse (to_datetime w) (column "ds" p) with
    | Raise e => ([init; fitted], Raise e)
    | Return dates =>
        match stan_fit w p with
        | Some e => ([init; fitted], Raise e)
        | None =>
            let history_dates := sort_values (unique dates) in
            match max_date history_dates with
            | None =>
                ([init; fitted; EvMakeFuture 15],
                 Raise (Exn ValueError "Neither `start` nor `end` can be NaT"))
            | Some last_date =>
                let all := history_dates ++ future_dates last_date 15 in
                ([init; fitted; EvMakeFuture 15; EvPredict (future_frame all)],
                 Return (forecast_frame all (map (stan_predict w p) all)))
            end
        end
    end.
Proof.
  unfold run_prophet, Prophet_new, fit.
  unfold bind at 1. unfold bind at 1. cbn [emit ret app history].
  unfold bind at 1. unfold bind at 1. cbn [emit].
  destruct (negb (has_column "ds" p && has_column "y" p)); [reflexivity |].
  destruct (length (filter notna (column "y" p)) <? 2)%nat; [reflexivity |].
  unfold bind at 1. cbn [ask].
  destruct (traverse (to_datetime w) (column "ds" p)) as [dates | e];
    [| reflexivity].
  unfold bind at 1. cbn [ask].
  destruct (stan_fit w p) as [e | ]; [reflexivity |].
  cbn [ret app].
  unfold make_future_dataframe, predict.
  unfold bind at 1. unfold bind at 1. cbn [emit history_dates].
  destruct (max_date (sort_values (unique dates))) as [last_date |];
    [| reflexivity].
  cbn [ret app]. unfold bind at 1. unfold bind at 1. cbn [emit history].
  assert (Hlen : (len (future_frame (sort_values (unique dates)
                                     ++ future_dates last_date 15)) =? 0)%nat
                 = false).
  { unfold len, future_frame. cbn [index].
    rewrite RangeIndex_length, length_app, future_dates_length.
    apply Nat.eqb_neq. lia. }
  rewrite Hlen. unfold bind at 1. cbn [ask].
  change (column "ds" (future_frame ?l)) with (map Stamp l).
  rewrite traverse_stamps. reflexivity.
Qed.

Lemma insert_sorted_In x y l : In y (insert_sorted x l) <-> y = x \/ In y l.
Proof.
  induction l as [| z l IH]; cbn; [intuition |].
  destruct (x <=? z)%Z; cbn; [intuition |].
  rewrite IH. intuition.
Qed.

Lemma sort_values_In y l : In y (sort_values l) <-> In y l.
Proof.
  unfold sort_values. induction l as [| x l IH]; cbn; [tauto |].
  rewrite insert_sorted_In, IH. intuition.
Qed.

Lemma unique_In y l : In y (unique l) <-> In y l.
Proof. unfold unique. now rewrite <- in_rev, nodup_In, <- in_rev. Qed.

Lemma max_date_spec l m :
  max_date l = Some m -> In m l /\ forall d, In d l -> (d <= m)%Z.
Proof.
  destruct l as [| x l]; [discriminate |]. cbn. intros H. inversion H as [Hm].
  clear H Hm. induction l as [| y l [IHin IHmax]]; cbn.
  - split; [tauto |]. intros d [-> | []]. lia.
  - split.
    + destruct (Z.max_spec y (fold_right Z.max x l)) as [[_ ->] | [_ ->]];
        [tauto |]. tauto.
    + intros d [-> | [-> | Hd]].
      * specialize (IHmax d (or_introl eq_refl)). lia.
      * lia.
      * specialize (IHmax d (or_intror Hd)). lia.
Qed.

(** One run of [get_forecast_data], branch by branch. *)
Lemma get_forecast_data_run w df :
  get_forecast_data df w =
  if empty df || negb (has_column "prcp" df) then ([], Return new_DataFrame)
  else
    match prepare df with
    | Raise e => ([], Raise e)
    | Return p =>
        if (len p <? 30)%nat then
          ([EvStreamlit st_warning
              ("Not enough data to generate a forecast. Only "
               ++ str_nat (len p) ++ " data points available.")],
           Return new_DataFrame)
        else run_prophet p w
    end.
Proof.
  unfold get_forecast_data.
  destruct (empty df || negb (has_column "prcp" df)); [reflexivity |].
  unfold bind at 1, lift.
  destruct (prepare df) as [p | e]; [| reflexivity].
  destruct (len p <? 30)%nat; [reflexivity |].
  destruct (run_prophet p w). reflexivity.
Qed.

(** The Prophet stage always starts with the constructor and one [fit] on
    the frame it was given; whatever follows is [make_future_dataframe]
    and then [predict], each at most once. *)
Lemma run_prophet_trace w p :
  exists rest,
    trace (run_prophet p w)
      = EvProphetInit true false true :: EvProphetFit p :: rest /\
    (rest = [] \/ rest = [EvMakeFuture 15] \/
     exists future, rest = [EvMakeFuture 15; EvPredict future]).
Proof.
  rewrite run_prophet_run. cbv zeta.
  repeat match goal with
  | |- context [if ?c then _ else _] => destruct c
  | |- context [match ?x with _ => _ end] => destruct x
  end; cbn [trace fst]; eexists; split; try reflexivity; eauto.
Qed.

(** A trace of [get_forecast_data] that holds a Prophet event is a trace
    of the Prophet stage on the prepared frame of at least 30 rows. *)
Lemma get_forecast_data_prophet w df ev :
  In ev (trace (get_forecast_data df w)) -> is_prophet ev = true ->
  exists p, prepare df = Return p /\ 30 <= len p /\
            get_forecast_data df w = run_prophet p w.
Proof.
  rewrite get_forecast_data_run.
  destruct (empty df || negb (has_column "prcp" df)); [intros [] |].
  destruct (prepare df) as [p | e]; [| intros []].
  destruct (Nat.ltb_spec (len p) 30) as [Hlt | Hge].
  - intros [<- | []]. discriminate.
  - intros _ _. exists p. auto.
Qed.

Lemma run_prophet_fit w p fitted :
  In (EvProphetFit fitted) (trace (run_prophet p w)) -> fitted = p.
Proof.
  destruct (run_prophet_trace w p) as [rest [-> Hrest]]. cbn.
  intros [H | [H | H]]; [discriminate | congruence |].
  destruct Hrest as [-> | [-> | [future ->]]]; cbn in H;
    intuition discriminate.
Qed.

Lemma keep_shorter {A} (m : list bool) (l : list A) :
  length (keep m l) <= length l.
Proof.
  revert l. induction m as [| b m IH]; intros [| x l]; cbn; try lia.
  specialize (IH l). destruct b; cbn; lia.
Qed.

(** The prepared frame has no more rows than the historical frame. *)
Lemma prepare_len df p : prepare df = Return p -> len p <= len df.
Proof.
  unfold prepare, reset_index.
  destruct (has_column _ df); [discriminate |].
  destruct (getitem ["ds"; "y"] _) as [selected | e] eqn:Hget; [| discriminate].
  intros H. inversion H; subst p; clear H.
  unfold getitem in Hget. destruct (find _ ["ds"; "y"]); [discriminate |].
  inversion Hget; subst selected; clear Hget.
  unfold len at 1, dropna. cbn [index].
  etransitivity; [apply keep_shorter |]. now rewrite RangeIndex_length.
Qed.

(** C8, as amended.  [get_forecast_data] never fits the model on an empty
    frame, on a frame without a [prcp] column, or on a frame of fewer than
    30 rows.  It returns the empty frame in the first two cases and
    whenever the prepared (ds, y) frame of lines 86-90 has fewer than 30
    rows once the incomplete ones are dropped; when that frame cannot be
    built (line 86 or 87 raises) the exception comes out instead, with
    nothing shown and no call into Prophet.  A [fit] in the trace is a fit
    on the prepared frame, which then has at least 30 rows and no missing
    cell. *)
Theorem forecast_guard w df :
  let r := get_forecast_data df w in
  (empty df = true \/ ~ In "prcp" (columns df) ->
     result r = Return new_DataFrame /\ count is_prophet (trace r) = 0) /\
  (forall p, prepare df = Return p -> len p < 30 ->
     result r = Return new_DataFrame /\ count is_prophet (trace r) = 0) /\
  (forall e, empty df = false -> In "prcp" (columns df) ->
             prepare df = Raise e -> r = ([], Raise e)) /\
  (len df < 30 ->
     count is_prophet (trace r) = 0 /\
     (result r = Return new_DataFrame \/
      exists e, prepare df = Raise e /\ result r = Raise e)) /\
  (forall fitted, In (EvProphetFit fitted) (trace r) ->
     prepare df = Return fitted /\ 30 <= len fitted /\
     forall c v, In c (series fitted) -> In v (snd c) -> notna v = true).
Proof.
  cbv zeta. split; [| split; [| split; [| split]]].
  - intros Hguard.
    assert (Hg : empty df || negb (has_column "prcp" df) = true).
    { destruct Hguard as [-> | Hno]; [reflexivity |].
      apply orb_true_iff. right. apply negb_true_iff.
      destruct (has_column "prcp" df) eqn:Hhas; [| reflexivity].
      apply has_column_In in Hhas. contradiction. }
    rewrite get_forecast_data_run, Hg. split; reflexivity.
  - intros p Hp Hlen. rewrite get_forecast_data_run, Hp.
    destruct (empty df || negb (has_column "prcp" df));
      [split; reflexivity |].
    apply Nat.ltb_lt in Hlen. rewrite Hlen. split; reflexivity.
  - intros e Hempty Hprcp Hprep. apply has_column_In in Hprcp.
    now rewrite get_forecast_data_run, Hempty, Hprcp, Hprep.
  - intros Hshort. rewrite get_forecast_data_run.
    destruct (empty df || negb (has_column "prcp" df));
      [split; [reflexivity | now left] |].
    destruct (prepare df) as [p | e] eqn:Hp.
    + apply prepare_len in Hp.
      destruct (Nat.ltb_spec (len p) 30) as [_ | Hge]; [| lia].
      split; [reflexivity | now left].
    + split; [reflexivity |]. right. exists e. split; reflexivity.
  - intros fitted Hin.
    destruct (get_forecast_data_prophet w df _ Hin eq_refl)
      as [p [Hp [Hlen Hrun]]].
    rewrite Hrun in Hin. apply run_prophet_fit in Hin. subst fitted.
    repeat split; try assumption. apply (prepare_shape df p Hp).
Qed.

Lemma forecast_guard_witness :
  result (get_forecast_data new_DataFrame (Samples.online 31 40))
    = Return new_DataFrame
  /\ result (get_forecast_data (Samples.daily_frame 29) (Samples.online 31 40))
    = Return new_DataFrame
  /\ count is_prophet
       (trace (get_forecast_data (Samples2.dated_frame 5)
                                 (Samples.online 31 40))) = 0
  /\ 30 <= len (dropna (mkDataFrame None (RangeIndex 30)
                   [("ds", map Samples.day (seq 0 30));
                    ("y", map (fun _ => Num (PyFloat "0.0")) (seq 0 30))])).
Proof.
  split; [| split; [| split]].
  - apply (forecast_guard (Samples.online 31 40) new_DataFrame).
    left. reflexivity.
  - destruct (forecast_guard (Samples.online 31 40) (Samples.daily_frame 29))
      as [_ [Hshort _]].
    apply (Hshort (dropna (mkDataFrame None (RangeIndex 29)
                     [("ds", map Samples.day (seq 0 29));
                      ("y", map (fun _ => Num (PyFloat "0.0")) (seq 0 29))]))).
    + reflexivity.
    + vm_compute. lia.
  - destruct (forecast_guard (Samples.online 31 40) (Samples2.dated_frame 5))
      as [_ [_ [_ [Hrows _]]]].
    apply Hrows. vm_compute. lia.
  - destruct (forecast_guard (Samples.online 31 40) (Samples.daily_frame 30))
      as [_ [_ [_ [_ Hfit]]]].
    apply Hfit. vm_compute. tauto.
Defined.

(** C8 as stated fails: a frame of five complete rows with a [prcp] column
    but an index named [date] does not give an empty forecast; line 87
    raises [KeyError]. *)
Lemma short_frame_raises :
  empty (Samples2.dated_frame 5) = false /\
  In "prcp" (columns (Samples2.dated_frame 5)) /\
  len (dropna (Samples2.dated_frame 5)) = 5 /\
  result (get_forecast_data (Samples2.dated_frame 5) (Samples.online 31 40))
    = Raise (Exn KeyError "['ds'] not in index") /\
  result (get_forecast_data (Samples2.dated_frame 5) (Samples.online 31 40))
    <> Return new_DataFrame.
Proof.
  split; [reflexivity |]. split; [cbn; tauto |]. split; [reflexivity |].
  split; [reflexivity | discriminate].
Qed.

(** C2.  A non-empty result of [get_forecast_data] is Prophet's prediction
    on a future frame made of the distinct historical dates, in order,
    followed by exactly 15 further dates: one, two, ..., fifteen days
    after the last date of the prepared history.  The frame returned is
    that prediction, row for row: for each of these dates the value of
    the fitted model at that date (trend, yhat and its two bounds). *)
Theorem forecast_horizon w df f :
  result (get_forecast_data df w) = Return f ->
  empty f = false ->
  exists p dates last_date,
    prepare df = Return p /\
    traverse (to_datetime w) (column "ds" p) = Return dates /\
    In last_date dates /\ (forall d, In d dates -> (d <= last_date)%Z) /\
    let history_dates := sort_values (unique dates) in
    let horizon :=
      map (fun k => (last_date + Z.of_nat k * one_day)%Z) (seq 1 15) in
    (forall d, In d history_dates <-> In d dates) /\
    length horizon = 15 /\
    trace (get_forecast_data df w)
      = [EvProphetInit true false true; EvProphetFit p; EvMakeFuture 15;
         EvPredict (future_frame (history_dates ++ horizon))] /\
    column "ds" f = map Stamp (history_dates ++ horizon) /\
    len f = length history_dates + 15 /\
    f = mkDataFrame None (RangeIndex (length (history_dates ++ horizon)))
          [("ds", map Stamp (history_dates ++ horizon));
           ("trend", map (fun d => trend (stan_predict w p d))
                         (history_dates ++ horizon));
           ("yhat_lower", map (fun d => yhat_lower (stan_predict w p d))
                              (history_dates ++ horizon));
           ("yhat_upper", map (fun d => yhat_upper (stan_predict w p d))
                              (history_dates ++ horizon));
           ("yhat", map (fun d => yhat (stan_predict w p d))
                        (history_dates ++ horizon))].
Proof.
  rewrite get_forecast_data_run.
  destruct (empty df || negb (has_column "prcp" df)).
  { cbn. intros H. inversion H; subst. discriminate. }
  destruct (prepare df) as [p | e]; [| discriminate].
  destruct (len p <? 30)%nat.
  { cbn. intros H. inversion H; subst. discriminate. }
  rewrite run_prophet_run. cbv zeta.
  destruct (negb (has_column "ds" p && has_column "y" p)); [discriminate |].
  destruct (length (filter notna (column "y" p)) <? 2)%nat; [discriminate |].
  destruct (traverse (to_datetime w) (column "ds" p)) as [dates | e] eqn:Hdates;
    [| discriminate].
  destruct (stan_fit w p); [discriminate |].
  destruct (max_date (sort_values (unique dates))) as [last_date |] eqn:Hmax;
    [| discriminate].
  cbn [result trace fst snd]. intros H _. inversion H; subst f; clear H.
  apply max_date_spec in Hmax as [Hin Hle].
  assert (Hsame : forall d, In d (sort_values (unique dates)) <-> In d dates).
  { intros d. now rewrite sort_values_In, unique_In. }
  exists p, dates, last_date. cbv zeta.
  split; [reflexivity |]. split; [assumption |].
  split; [now apply Hsame |].
  split; [intros d Hd; apply Hle; now apply Hsame |].
  split; [assumption |]. split; [reflexivity |]. split; [reflexivity |].
  split; [reflexivity |].
  split.
  - unfold len, forecast_frame. cbn [index].
    rewrite RangeIndex_length, length_app. reflexivity.
  - unfold forecast_frame, future_dates. now rewrite !map_map.
Qed.

Lemma forecast_horizon_witness :
  exists p dates last_date,
    prepare (Samples.daily_frame 31) = Return p /\
    traverse (to_datetime (Samples.online 31 40)) (column "ds" p)
      = Return dates /\
    In last_date dates /\
    column "ds" (forecast_frame
                   (map (fun n => Z.of_nat n * one_day)%Z (seq 0 46))
                   (map (fun _ => Samples.flat_point) (seq 0 46)))
      = map Stamp (sort_values (unique dates)
                   ++ map (fun k => (last_date + Z.of_nat k * one_day)%Z)
                          (seq 1 15)).
Proof.
  assert (Hf : result (get_forecast_data (Samples.daily_frame 31)
                                         (Samples.online 31 40))
               = Return (forecast_frame
                           (map (fun n => Z.of_nat n * one_day)%Z (seq 0 46))
                           (map (fun _ => Samples.flat_point) (seq 0 46))))
    by (vm_compute; reflexivity).
  destruct (forecast_horizon _ _ _ Hf eq_refl)
    as [p [dates [last_date
          [Hp [Hdates [Hlast [_ [_ [_ [_ [Hds _]]]]]]]]]]].
  exists p, dates, last_date. auto.
Defined.

(* ===================================================================== *)
(** ** One run of the script: which stage emits what *)

Lemma filter_none p (t : list event) :
  forallb (fun ev => negb (p ev)) t = true -> filter p t = [].
Proof.
  induction t as [| ev t IH]; cbn; [reflexivity |].
  intros H. apply andb_prop in H as [Hev Ht].
  destruct (p ev); [discriminate | auto].
Qed.

Lemma only_weaken {A} (p q : event -> bool) (m : M A) :
  (forall ev, p ev = true -> q ev = true) -> only p m -> only q m.
Proof. intros Hpq Hm w. eapply forallb_weaken; [exact Hpq | apply Hm]. Qed.

(** Events that are neither a fetch, nor a file read, nor a Prophet call. *)
Lemma key_lookup_only :
  only (fun ev => negb (is_fetch ev || is_read_csv ev || is_prophet ev))
       OPENWEATHER_API_KEY.
Proof. unfold OPENWEATHER_API_KEY. only_solve. Qed.

Lemma get_historical_data_only lat lon start_date end_date :
  only (fun ev => negb (is_http_get ev || is_prophet ev))
       (get_historical_data lat lon start_date end_date).
Proof.
  unfold get_historical_data, Daily_fetch, pd_read_csv. only_solve.
Qed.

Lemma get_forecast_data_only df :
  only (fun ev => negb (is_fetch ev || is_read_csv ev)) (get_forecast_data df).
Proof.
  unfold get_forecast_data, run_prophet, Prophet_new, fit,
    make_future_dataframe, predict.
  only_solve.
Qed.

Lemma get_real_time_data_only api_key lat lon :
  only (fun ev => negb (is_meteostat ev || is_read_csv ev || is_prophet ev))
       (get_real_time_data api_key lat lon).
Proof. unfold get_real_time_data, requests_get. only_solve. Qed.

Lemma key_lookup_result w key :
  result (OPENWEATHER_API_KEY w) = Return key -> key = configured_key w.
Proof.
  unfold OPENWEATHER_API_KEY, configured_key, try_except, bind, ask, ret, st,
    emit.
  destruct (secrets_api_key w) as [k | e]; cbn; [congruence |].
  destruct (is_KeyError e || is_FileNotFoundError e); cbn; congruence.
Qed.

(** The trace of a run is the concatenation of the traces of its stages,
    cut short at the first stage that raises. *)
Lemma run_stages w :
  trace (fetch_data_for_all_tabs w) =
  trace (OPENWEATHER_API_KEY w) ++
  match result (OPENWEATHER_API_KEY w) with
  | Raise _ => []
  | Return _ =>
      [EvStreamlit st_title "Jammu Weather Trend & Forecast Dashboard";
       EvTabs ["Historical Trends"; "Forecast"; "Real-time Weather"; "Risk Map"]]
      ++ trace (historical_stage w) ++
      match result (historical_stage w) with
      | Raise _ => []
      | Return h =>
          trace (get_forecast_data h w) ++
          match result (get_forecast_data h w) with
          | Raise _ => []
          | Return _ => trace (real_time_stage w)
          end
      end
  end.
Proof.
  unfold fetch_data_for_all_tabs, historical_stage, real_time_stage.
  rewrite trace_bind. f_equal.
  destruct (result (OPENWEATHER_API_KEY w)) as [key | e] eqn:Hkey;
    [| reflexivity].
  apply key_lookup_result in Hkey. subst key.
  rewrite trace_bind. cbn [st emit trace result fst snd app].
  rewrite trace_bind. cbn [emit trace result fst snd app].
  rewrite trace_bind. cbn [ask trace result fst snd app].
  rewrite trace_bind. do 3 f_equal.
  destruct (result (get_historical_data _ _ _ _ w)) as [h | e];
    [| reflexivity].
  rewrite trace_bind. f_equal.
  destruct (result (get_forecast_data h w)) as [f | e]; [| reflexivity].
  rewrite trace_bind.
  destruct (result (get_real_time_data _ _ _ w)); cbn; now rewrite app_nil_r.
Qed.

(** A run that completes went through every stage. *)
Lemma run_completes w d :
  result (fetch_data_for_all_tabs w) = Return d ->
  exists key,
    result (OPENWEATHER_API_KEY w) = Return key /\
    result (historical_stage w) = Return (historical_df d) /\
    result (get_forecast_data (historical_df d) w) = Return (forecast_df d) /\
    result (real_time_stage w) = Return (real_time_data d).
Proof.
  unfold fetch_data_for_all_tabs, historical_stage, real_time_stage.
  rewrite result_bind.
  destruct (result (OPENWEATHER_API_KEY w)) as [key | e] eqn:Hkey;
    [| discriminate].
  pose proof (key_lookup_result w key Hkey) as Hconf. subst key.
  rewrite result_bind. cbn [st emit trace result fst snd].
  rewrite result_bind. cbn [emit trace result fst snd].
  rewrite result_bind. cbn [ask trace result fst snd].
  rewrite result_bind.
  destruct (result (get_historical_data _ _ _ _ w)) as [h | e];
    [| discriminate].
  rewrite result_bind.
  destruct (result (get_forecast_data h w)) as [f | e] eqn:Hf; [| discriminate].
  rewrite result_bind.
  destruct (result (get_real_time_data _ _ _ w)) as [rt | e]; [| discriminate].
  cbn. intros H. inversion H; subst d; clear H. cbn.
  exists (configured_key w). auto.
Qed.

Lemma only_In {A} allowed (m : M A) w ev :
  only allowed m -> In ev (trace (m w)) -> allowed ev = true.
Proof.
  intros Hm Hin. specialize (Hm w). rewrite forallb_forall in Hm. auto.
Qed.

(** Where an event of a run comes from. *)
Lemma run_event_origin w ev :
  In ev (trace (fetch_data_for_all_tabs w)) ->
  In ev (trace (OPENWEATHER_API_KEY w)) \/
  ev = EvStreamlit st_title "Jammu Weather Trend & Forecast Dashboard" \/
  ev = EvTabs ["Historical Trends"; "Forecast"; "Real-time Weather"; "Risk Map"] \/
  In ev (trace (historical_stage w)) \/
  (exists h, result (historical_stage w) = Return h /\
             In ev (trace (get_forecast_data h w))) \/
  In ev (trace (real_time_stage w)).
Proof.
  rewrite run_stages. intros Hin.
  apply in_app_or in Hin as [Hin | Hin]; [tauto |].
  destruct (result (OPENWEATHER_API_KEY w)); [| contradiction].
  cbn [app] in Hin. destruct Hin as [<- | [<- | Hin]]; [tauto | tauto |].
  apply in_app_or in Hin as [Hin | Hin]; [tauto |].
  destruct (result (historical_stage w)) as [h | e]; [| contradiction].
  apply in_app_or in Hin as [Hin | Hin]; [eauto 8 |].
  destruct (result (get_forecast_data h w)); [tauto | contradiction].
Qed.

(** The only fetch [get_historical_data] makes is the Meteostat one, for
    the point it was given. *)
Lemma get_historical_data_fetch w lat lon start_date end_date ev :
  In ev (trace (get_historical_data lat lon start_date end_date w)) ->
  is_fetch ev = true ->
  ev = EvMeteostat (mkPoint lat lon 327) start_date end_date.
Proof.
  historical_cases w; cbn; intuition (subst; try discriminate; auto).
Qed.

(** The only fetch [get_real_time_data] makes is the GET on the URL built
    from its arguments, and it needs a non-empty key. *)
Lemma get_real_time_data_fetch w api_key lat lon ev :
  In ev (trace (get_real_time_data api_key lat lon w)) ->
  is_fetch ev = true ->
  exists key, api_key = Some key /\ key <> "" /\
              ev = EvHttpGet (weather_url key lat lon) 10.
Proof.
  destruct api_key as [key |]; [| intros []].
  destruct (String.eqb_spec key "") as [-> | Hkey]; [intros [] |].
  rewrite (get_real_time_data_run w key lat lon Hkey).
  intros Hin Hfetch. exists key. split; [reflexivity |]. split; [assumption |].
  revert Hin. real_time_cases w; cbn;
    intuition (subst; try discriminate; auto).
Qed.

(** C3.  Every fetch of a run, the Meteostat one and the OpenWeather one,
    is made for latitude 32.73 and longitude 74.86. *)
Theorem single_location w ev :
  In ev (trace (fetch_data_for_all_tabs w)) ->
  is_fetch ev = true ->
  (exists start_date end_date,
     ev = EvMeteostat (mkPoint (PyFloat "32.73") (PyFloat "74.86") 327)
                      start_date end_date) \/
  (exists key,
     ev = EvHttpGet (weather_url key (PyFloat "32.73") (PyFloat "74.86")) 10).
Proof.
  intros Hin Hfetch.
  apply run_event_origin in Hin
    as [Hin | [-> | [-> | [Hin | [[h [_ Hin]] | Hin]]]]];
    try discriminate.
  - apply (only_In _ _ _ _ key_lookup_only) in Hin.
    rewrite negb_true_iff, !orb_false_iff in Hin.
    destruct Hin as [[Hf _] _]. congruence.
  - left. apply get_historical_data_fetch in Hin; [| assumption]. eauto.
  - apply (only_In _ _ _ _ (get_forecast_data_only h)) in Hin.
    rewrite negb_true_iff, orb_false_iff in Hin. destruct Hin. congruence.
  - right. apply get_real_time_data_fetch in Hin as [key [_ [_ ->]]];
      [| assumption]. eauto.
Qed.

Lemma single_location_witness :
  (exists start_date end_date,
     EvHttpGet "https://api.openweathermap.org/data/2.5/weather?lat=32.73&lon=74.86&appid=k3y&units=metric" 10
     = EvMeteostat (mkPoint (PyFloat "32.73") (PyFloat "74.86") 327)
                   start_date end_date) \/
  (exists key,
     EvHttpGet "https://api.openweathermap.org/data/2.5/weather?lat=32.73&lon=74.86&appid=k3y&units=metric" 10
     = EvHttpGet (weather_url key (PyFloat "32.73") (PyFloat "74.86")) 10).
Proof.
  apply (single_location (Samples.online 31 40)).
  - vm_compute. tauto.
  - reflexivity.
Defined.

(* ===================================================================== *)
(** ** Counting the fetches and the library calls of a run *)

Lemma count_only_zero {A} allowed p (m : M A) w :
  only allowed m -> (forall ev, allowed ev = true -> p ev = false) ->
  count p (trace (m w)) = 0.
Proof.
  intros Hm Hp. apply count_none. eapply forallb_weaken; [| apply Hm].
  intros ev Hev. cbn. now rewrite (Hp ev Hev).
Qed.

Ltac excluded :=
  intros ev Hev; rewrite negb_true_iff in Hev;
  unfold is_fetch, is_prophet in *;
  destruct ev; cbn in *; try reflexivity; discriminate.

Lemma get_historical_data_meteostat w lat lon start_date end_date :
  count is_meteostat (trace (get_historical_data lat lon start_date end_date w))
  = 1.
Proof. historical_cases w; reflexivity. Qed.

Lemma get_real_time_data_gets w api_key lat lon :
  count is_http_get (trace (get_real_time_data api_key lat lon w))
  = if falsy api_key then 0 else 1.
Proof.
  destruct api_key as [key |]; [| reflexivity].
  destruct (String.eqb_spec key "") as [-> | Hkey]; [reflexivity |].
  rewrite (get_real_time_data_run w key lat lon Hkey).
  apply falsy_Some in Hkey. rewrite Hkey.
  real_time_cases w; reflexivity.
Qed.

Lemma get_real_time_data_no_key w api_key lat lon :
  falsy api_key = true ->
  get_real_time_data api_key lat lon w = ([], Return None).
Proof. intros H. unfold get_real_time_data. now rewrite H. Qed.

(** The fetches of a run, stage by stage. *)
Lemma run_meteostat_count w :
  count is_meteostat (trace (fetch_data_for_all_tabs w)) =
  match result (OPENWEATHER_API_KEY w) with Return _ => 1 | Raise _ => 0 end.
Proof.
  rewrite run_stages, count_app.
  rewrite (count_only_zero _ is_meteostat _ w key_lookup_only) by excluded.
  destruct (result (OPENWEATHER_API_KEY w)); [| reflexivity].
  rewrite !count_app. unfold historical_stage.
  rewrite get_historical_data_meteostat.
  destruct (result (get_historical_data _ _ _ _ w)) as [h | e];
    [| reflexivity].
  rewrite count_app.
  rewrite (count_only_zero _ is_meteostat _ w (get_forecast_data_only h))
    by excluded.
  destruct (result (get_forecast_data h w)); [| reflexivity].
  unfold real_time_stage.
  rewrite (count_only_zero _ is_meteostat _ w
             (get_real_time_data_only _ _ _)) by excluded.
  reflexivity.
Qed.

Lemma run_http_count w :
  count is_http_get (trace (fetch_data_for_all_tabs w)) =
  match result (OPENWEATHER_API_KEY w) with
  | Raise _ => 0
  | Return _ =>
      match result (historical_stage w) with
      | Raise _ => 0
      | Return h =>
          match result (get_forecast_data h w) with
          | Raise _ => 0
          | Return _ => if falsy (configured_key w) then 0 else 1
          end
      end
  end.
Proof.
  rewrite run_stages, count_app.
  rewrite (count_only_zero _ is_http_get _ w key_lookup_only) by excluded.
  destruct (result (OPENWEATHER_API_KEY w)); [| reflexivity].
  rewrite !count_app. unfold historical_stage at 1.
  rewrite (count_only_zero _ is_http_get _ w
             (get_historical_data_only _ _ _ _)) by excluded.
  destruct (result (historical_stage w)) as [h | e]; [| reflexivity].
  rewrite count_app.
  rewrite (count_only_zero _ is_http_get _ w (get_forecast_data_only h))
    by excluded.
  destruct (result (get_forecast_data h w)); [| reflexivity].
  unfold real_time_stage. rewrite get_real_time_data_gets. reflexivity.
Qed.

(** C5, as amended.  A run makes at most one Meteostat fetch and at most
    one OpenWeather request.  A run that completes has made exactly one
    Meteostat fetch, and one OpenWeather request exactly when a non-empty
    API key is configured; without a key no request is sent and the
    real-time data are [None].  The real-time fetch has no fallback: it
    never reads the fallback file, sends at most one request, and returns
    [None] when the request raises a [RequestException] or comes back with
    an error status.  The historical fetch reads the fallback file when
    Meteostat fails. *)
Theorem fetches_per_run w :
  let r := fetch_data_for_all_tabs w in
  count is_meteostat (trace r) <= 1 /\
  count is_http_get (trace r) <= 1 /\
  (forall d, result r = Return d ->
     count is_meteostat (trace r) = 1 /\
     count is_http_get (trace r) = (if falsy (configured_key w) then 0 else 1) /\
     (falsy (configured_key w) = true -> real_time_data d = None)) /\
  (forall api_key lat lon,
     let rt := get_real_time_data api_key lat lon w in
     count is_read_csv (trace rt) = 0 /\
     count is_fetch (trace rt) <= 1 /\
     forall key, api_key = Some key -> key <> "" ->
       (forall e, http w (weather_url key lat lon) = Raise e ->
                  is_RequestException e = true -> result rt = Return None) /\
       (forall response, http w (weather_url key lat lon) = Return response ->
                         (400 <= status_code response < 600)%Z ->
                         result rt = Return None)) /\
  (fetch_failed w JAMMU_LAT JAMMU_LON (mk_datetime 2020 1 1 0) (clock w) ->
   count is_read_csv (trace (historical_stage w)) = 1).
Proof.
  cbv zeta. rewrite run_meteostat_count, run_http_count.
  split; [destruct (result (OPENWEATHER_API_KEY w)); lia |].
  split.
  { destruct (result (OPENWEATHER_API_KEY w)); [| lia].
    destruct (result (historical_stage w)) as [h | e]; [| lia].
    destruct (result (get_forecast_data h w)); [| lia].
    destruct (falsy (configured_key w)); lia. }
  split.
  { intros d Hd. apply run_completes in Hd as [key [Hkey [Hh [Hf Hrt]]]].
    rewrite Hkey, Hh, Hf. repeat split.
    intros Hnone. unfold real_time_stage in Hrt.
    rewrite (get_real_time_data_no_key _ _ _ _ Hnone) in Hrt.
    cbn in Hrt. congruence. }
  split.
  { intros api_key lat lon. split; [| split].
    - apply (count_only_zero _ is_read_csv _ w
               (get_real_time_data_only api_key lat lon)). excluded.
    - assert (Hsplit : count is_fetch (trace (get_real_time_data api_key lat lon w))
                       = count is_http_get
                           (trace (get_real_time_data api_key lat lon w))).
      { pose proof (get_real_time_data_only api_key lat lon w) as Hall.
        unfold count. f_equal. apply filter_ext_in. intros ev Hev.
        rewrite forallb_forall in Hall. specialize (Hall ev Hev).
        rewrite negb_true_iff, !orb_false_iff in Hall.
        unfold is_fetch. destruct Hall as [[-> _] _]. reflexivity. }
      rewrite Hsplit, get_real_time_data_gets. destruct (falsy api_key); lia.
    - intros key -> Hkey.
      rewrite (get_real_time_data_run w key lat lon Hkey). cbv zeta. split.
      + intros e -> ->. reflexivity.
      + intros response -> Herr.
        destruct (raise_for_status_error response Herr) as [e He].
        rewrite He, (raise_for_status_raises response e He). reflexivity. }
  intros Hfail. unfold historical_stage.
  revert Hfail. historical_cases w; intros; try reflexivity; congruence.
Qed.

Lemma fetches_per_run_witness :
  count is_http_get (trace (fetch_data_for_all_tabs (Samples.online 31 40))) = 1
  /\ count is_http_get (trace (fetch_data_for_all_tabs Samples.offline)) = 0
  /\ result (get_real_time_data (Some "k3y") JAMMU_LAT JAMMU_LON
                                (Samples.fallback_only 40)) = Return None.
Proof.
  split; [| split].
  - destruct (fetches_per_run (Samples.online 31 40)) as [_ [_ [Hdone _]]].
    destruct (Hdone _ eq_refl) as [_ [Hget _]]. exact Hget.
  - destruct (fetches_per_run Samples.offline) as [_ [_ [Hdone _]]].
    destruct (Hdone _ eq_refl) as [_ [Hget _]]. exact Hget.
  - destruct (fetches_per_run (Samples.fallback_only 40))
      as [_ [_ [_ [Hrt _]]]].
    destruct (Hrt (Some "k3y") JAMMU_LAT JAMMU_LON) as [_ [_ Hfail]].
    assert (Hkey : "k3y" <> "") by discriminate.
    destruct (Hfail "k3y" eq_refl Hkey) as [Hraise _].
    apply (Hraise Samples.unreachable); reflexivity.
Defined.

(** C5 as stated fails: with no API key configured the run completes
    after a single fetch, the Meteostat one. *)
Lemma one_fetch_without_key :
  (exists d, result (fetch_data_for_all_tabs Samples.offline) = Return d) /\
  count is_fetch (trace (fetch_data_for_all_tabs Samples.offline)) = 1 /\
  count is_http_get (trace (fetch_data_for_all_tabs Samples.offline)) = 0.
Proof.
  split; [eexists; reflexivity |]. split; reflexivity.
Qed.

Lemma count_filter p q (t : list event) :
  (forall ev, p ev = true -> q ev = true) ->
  count p (filter q t) = count p t.
Proof.
  intros Hpq. unfold count. induction t as [| ev t IH]; [reflexivity |].
  cbn. destruct (q ev) eqn:Hq; cbn.
  - destruct (p ev); cbn; now rewrite IH.
  - destruct (p ev) eqn:Hp; [| exact IH].
    rewrite (Hpq ev Hp) in Hq. discriminate.
Qed.

Lemma only_filter_none {A} allowed p (m : M A) w :
  only allowed m -> (forall ev, allowed ev = true -> p ev = false) ->
  filter p (trace (m w)) = [].
Proof.
  intros Hm Hp. apply filter_none. eapply forallb_weaken; [| apply Hm].
  intros ev Hev. cbn. now rewrite (Hp ev Hev).
Qed.

(** The Prophet calls of a run are those of its forecast stage. *)
Lemma run_prophet_events w :
  filter is_prophet (trace (fetch_data_for_all_tabs w)) =
  match result (OPENWEATHER_API_KEY w) with
  | Raise _ => []
  | Return _ =>
      match result (historical_stage w) with
      | Raise _ => []
      | Return h => filter is_prophet (trace (get_forecast_data h w))
      end
  end.
Proof.
  rewrite run_stages, filter_app.
  rewrite (only_filter_none _ is_prophet _ w key_lookup_only) by excluded.
  destruct (result (OPENWEATHER_API_KEY w)); [| reflexivity].
  rewrite !filter_app. unfold historical_stage at 1.
  rewrite (only_filter_none _ is_prophet _ w
             (get_historical_data_only _ _ _ _)) by excluded.
  destruct (result (historical_stage w)) as [h | e]; [| reflexivity].
  rewrite filter_app.
  destruct (result (get_forecast_data h w)); cbn [app];
    [| now rewrite app_nil_r].
  unfold real_time_stage.
  rewrite (only_filter_none _ is_prophet _ w
             (get_real_time_data_only _ _ _)) by excluded.
  now rewrite app_nil_r.
Qed.

(** The Prophet calls of the forecast stage: none, or the constructor and
    one [fit] on the prepared frame, then [make_future_dataframe] and
    [predict] in this order, each at most once. *)
Lemma get_forecast_data_prophet_events w h :
  filter is_prophet (trace (get_forecast_data h w)) = [] \/
  exists p rest,
    prepare h = Return p /\ 30 <= len p /\
    filter is_prophet (trace (get_forecast_data h w))
      = EvProphetInit true false true :: EvProphetFit p :: rest /\
    (rest = [] \/ rest = [EvMakeFuture 15] \/
     exists future, rest = [EvMakeFuture 15; EvPredict future]).
Proof.
  rewrite get_forecast_data_run.
  destruct (empty h || negb (has_column "prcp" h)); [now left |].
  destruct (prepare h) as [p | e]; [| now left].
  destruct (Nat.ltb_spec (len p) 30) as [Hlt | Hge]; [now left |].
  right. destruct (run_prophet_trace w p) as [rest [-> Hrest]].
  exists p, rest. repeat split; try assumption.
  destruct Hrest as [-> | [-> | [future ->]]]; reflexivity.
Qed.

Lemma run_prophet_complete w p f :
  result (run_prophet p w) = Return f ->
  exists future,
    trace (run_prophet p w)
      = [EvProphetInit true false true; EvProphetFit p; EvMakeFuture 15;
         EvPredict future].
Proof.
  rewrite run_prophet_run. cbv zeta.
  repeat match goal with
  | |- context [if ?c then _ else _] => destruct c
  | |- context [match ?x with _ => _ end] => destruct x
  end; cbn [result trace fst snd]; intros H; try discriminate.
  eexists. reflexivity.
Qed.

Lemma forecast_stage_usable w h p :
  empty h = false -> In "prcp" (columns h) ->
  prepare h = Return p -> 30 <= len p ->
  get_forecast_data h w = run_prophet p w.
Proof.
  intros Hempty Hprcp Hp Hlen. apply has_column_In in Hprcp.
  rewrite get_forecast_data_run, Hempty, Hprcp, Hp. cbn [negb orb].
  destruct (Nat.ltb_spec (len p) 30); [lia | reflexivity].
Qed.

Lemma forecast_stage_unusable w h :
  empty h = true \/ ~ In "prcp" (columns h) \/
  (exists e, prepare h = Raise e) \/
  (exists p, prepare h = Return p /\ len p < 30) ->
  filter is_prophet (trace (get_forecast_data h w)) = [].
Proof.
  intros Hcase. rewrite get_forecast_data_run.
  destruct (empty h) eqn:Hempty; [reflexivity |].
  destruct (has_column "prcp" h) eqn:Hprcp; [| reflexivity].
  cbn [negb orb].
  destruct Hcase as [H | [H | [[e H] | [p [H Hlen]]]]].
  - discriminate.
  - apply has_column_In in Hprcp. contradiction.
  - now rewrite H.
  - rewrite H. apply Nat.ltb_lt in Hlen. now rewrite Hlen.
Qed.

(** C7, as amended.  A run calls the forecasting library on usable data
    only, and then once.  When the historical frame is non-empty, has a
    [prcp] column and its prepared (ds, y) frame, incomplete rows
    dropped, has at least 30 rows, Prophet is constructed exactly once
    and fit exactly once, on that frame; [make_future_dataframe] and
    [predict] follow in this order, each at most once, and exactly once
    when the forecast is returned.  When the historical frame is empty,
    lacks [prcp], cannot be prepared or leaves fewer than 30 prepared
    rows, or when the run does not get that far, no call into the library
    is made.  The frame that is fit carries only [ds] and [y] columns
    (exactly these two on a frame with distinct labels that uses neither
    name) and has no missing cell. *)
Theorem prophet_calls_per_run w :
  let t := trace (fetch_data_for_all_tabs w) in
  count is_prophet_init t <= 1 /\ count is_prophet_fit t <= 1 /\
  count is_make_future t <= 1 /\ count is_predict t <= 1 /\
  (filter is_prophet t = [] \/
   exists h p rest,
     result (historical_stage w) = Return h /\ prepare h = Return p /\
     30 <= len p /\
     filter is_prophet t
       = EvProphetInit true false true :: EvProphetFit p :: rest /\
     (rest = [] \/ rest = [EvMakeFuture 15] \/
      exists future, rest = [EvMakeFuture 15; EvPredict future]) /\
     (forall l, In l (columns p) -> l = "ds" \/ l = "y") /\
     In "ds" (columns p) /\ In "y" (columns p) /\
     (forall c v, In c (series p) -> In v (snd c) -> notna v = true) /\
     (NoDup (columns h) -> ~ In "ds" (columns h) -> ~ In "y" (columns h) ->
      index_name h <> Some "ds" -> index_name h <> Some "y" ->
      columns p = ["ds"; "y"])) /\
  (forall key h p,
     result (OPENWEATHER_API_KEY w) = Return key ->
     result (historical_stage w) = Return h ->
     empty h = false -> In "prcp" (columns h) ->
     prepare h = Return p -> 30 <= len p ->
     count is_prophet_init t = 1 /\ count is_prophet_fit t = 1 /\
     In (EvProphetFit p) t /\
     (forall f, result (get_forecast_data h w) = Return f ->
        count is_make_future t = 1 /\ count is_predict t = 1)) /\
  (forall h,
     result (historical_stage w) = Return h ->
     empty h = true \/ ~ In "prcp" (columns h) \/
     (exists e, prepare h = Raise e) \/
     (exists p, prepare h = Return p /\ len p < 30) ->
     count is_prophet t = 0) /\
  ((exists e, result (OPENWEATHER_API_KEY w) = Raise e) \/
   (exists e, result (historical_stage w) = Raise e) ->
   count is_prophet t = 0).
Proof.
  cbv zeta.
  assert (Hevents :
    filter is_prophet (trace (fetch_data_for_all_tabs w)) = [] \/
    exists h p rest,
      result (historical_stage w) = Return h /\ prepare h = Return p /\
      30 <= len p /\
      filter is_prophet (trace (fetch_data_for_all_tabs w))
        = EvProphetInit true false true :: EvProphetFit p :: rest /\
      (rest = [] \/ rest = [EvMakeFuture 15] \/
       exists future, rest = [EvMakeFuture 15; EvPredict future])).
  { rewrite run_prophet_events.
    destruct (result (OPENWEATHER_API_KEY w)); [| now left].
    destruct (result (historical_stage w)) as [h | e]; [| now left].
    destruct (get_forecast_data_prophet_events w h)
      as [Hnone | [p [rest [Hp [Hlen [Hev Hrest]]]]]]; [now left |].
    right. exists h, p, rest. auto. }
  assert (Hzero : filter is_prophet (trace (fetch_data_for_all_tabs w)) = [] ->
                  count is_prophet (trace (fetch_data_for_all_tabs w)) = 0).
  { intros Hnone. unfold count. now rewrite Hnone. }
  rewrite <- (count_filter is_prophet_init is_prophet),
          <- (count_filter is_prophet_fit is_prophet),
          <- (count_filter is_make_future is_prophet),
          <- (count_filter is_predict is_prophet);
    try (intros ev Hev; unfold is_prophet; rewrite Hev;
         rewrite ?orb_true_r; reflexivity).
  split; [| split; [| split; [| split; [| split; [| split; [| split]]]]]].
  1-4: destruct Hevents as [-> | [h [p [rest [_ [_ [_ [-> Hrest]]]]]]]];
    [cbn; lia |];
    destruct Hrest as [-> | [-> | [future ->]]]; cbn; lia.
  - destruct Hevents as [Hnone | [h [p [rest [Hh [Hp [Hlen [Hev Hrest]]]]]]]];
      [now left |].
    right. exists h, p, rest.
    destruct (prepare_shape h p Hp) as [Hsub [Hds [Hy Hna]]].
    repeat split; try assumption.
    intros. now apply (prepare_two_columns h p).
  - intros key h p Hkey Hh Hempty Hprcp Hp Hlen.
    assert (Hfilter : filter is_prophet (trace (fetch_data_for_all_tabs w))
                      = filter is_prophet (trace (run_prophet p w))).
    { rewrite run_prophet_events, Hkey, Hh.
      now rewrite (forecast_stage_usable w h p). }
    rewrite (forecast_stage_usable w h p) by assumption.
    rewrite Hfilter.
    destruct (run_prophet_trace w p) as [rest [Htrace Hrest]].
    split; [| split; [| split]].
    + rewrite Htrace.
      destruct Hrest as [-> | [-> | [future ->]]]; reflexivity.
    + rewrite Htrace.
      destruct Hrest as [-> | [-> | [future ->]]]; reflexivity.
    + assert (Hin : In (EvProphetFit p)
                       (filter is_prophet
                               (trace (fetch_data_for_all_tabs w)))).
      { rewrite Hfilter, Htrace. cbn. tauto. }
      apply filter_In in Hin. tauto.
    + intros f Hf. apply run_prophet_complete in Hf as [future ->].
      split; reflexivity.
  - intros h Hh Hcase. apply Hzero.
    rewrite run_prophet_events, Hh.
    destruct (result (OPENWEATHER_API_KEY w)); [| reflexivity].
    now apply forecast_stage_unusable.
  - intros Hstop. apply Hzero. rewrite run_prophet_events.
    destruct Hstop as [[e ->] | [e ->]]; [reflexivity |].
    destruct (result (OPENWEATHER_API_KEY w)); reflexivity.
Qed.

Lemma prophet_calls_per_run_witness :
  count is_prophet_fit
    (trace (fetch_data_for_all_tabs (Samples.online 31 40))) = 1
  /\ count is_predict
    (trace (fetch_data_for_all_tabs (Samples.online 31 40))) = 1
  /\ count is_prophet
    (trace (fetch_data_for_all_tabs (Samples.online 31 29))) <= 4
  /\ count is_prophet (trace (fetch_data_for_all_tabs Samples.offline)) = 0.
Proof.
  destruct (prophet_calls_per_run (Samples.online 31 40))
    as [_ [_ [_ [_ [_ [Husable _]]]]]].
  destruct (Husable (Some "k3y") (Samples.daily_frame 31)
              (dropna (mkDataFrame None (RangeIndex 31)
                 [("ds", map Samples.day (seq 0 31));
                  ("y", map (fun _ => Num (PyFloat "0.0")) (seq 0 31))])))
    as [_ [Hfit [_ Hdone]]];
    try reflexivity.
  { cbn. tauto. }
  { vm_compute. lia. }
  split; [exact Hfit |]. split.
  - refine (proj2 (Hdone _ _)). vm_compute. reflexivity.
  - split; [vm_compute; lia |].
    destruct (prophet_calls_per_run Samples.offline)
      as [_ [_ [_ [_ [_ [_ [Hnone _]]]]]]].
    apply (Hnone new_DataFrame); [reflexivity | now left].
Defined.

(** C7 as stated fails: a run whose historical data are empty completes
    without any call into Prophet, and a run that does forecast makes four
    calls (constructor, fit, make_future_dataframe, predict). *)
Lemma no_prophet_call_without_data :
  (exists d, result (fetch_data_for_all_tabs Samples.offline) = Return d) /\
  count is_prophet (trace (fetch_data_for_all_tabs Samples.offline)) = 0 /\
  count is_prophet (trace (fetch_data_for_all_tabs (Samples.online 31 40))) = 4.
Proof.
  split; [eexists; reflexivity |]. split; vm_compute; reflexivity.
Qed.

(* ===================================================================== *)
(** ** The risk map *)

Lemma prefix_spec a b :
  prefix a b = true <-> exists post, b = (a ++ post)%string.
Proof.
  revert b. induction a as [| c a IH]; intros b.
  - split; [intros _; now exists b | destruct b; reflexivity].
  - destruct b as [| c' b]; cbn.
    + split; [discriminate | intros [post H]; discriminate].
    + destruct (Ascii.ascii_dec c c') as [-> | Hne].
      * rewrite IH. split; intros [post H]; exists post;
          [now subst | now inversion H].
      * split; [discriminate | intros [post H]; inversion H; congruence].
Qed.

(** [contains] is Python's substring test. *)
Lemma contains_spec needle haystack :
  contains needle haystack = true <->
  exists pre post, haystack = (pre ++ needle ++ post)%string.
Proof.
  induction haystack as [| c rest IH].
  - cbn [contains]. rewrite orb_false_r, prefix_spec. split.
    + intros [post H]. now exists "", post.
    + intros [[| ? ?] [post H]]; [now exists post | discriminate].
  - cbn [contains]. rewrite orb_true_iff, prefix_spec, IH. split.
    + intros [[post H] | [pre [post H]]].
      * now exists "", post.
      * exists (String c pre), post. cbn. now rewrite H.
    + intros [[| c' pre] [post H]].
      * left. now exists post.
      * right. inversion H. now exists pre, post.
Qed.

(** C10.  The map carries one marker per hotspot of the two-entry list, in
    order.  A marker is red exactly when the hotspot's risk is "High" and
    orange otherwise; its icon is "cloud" exactly when the name contains
    "Cloudburst" and "bolt" otherwise. *)
Theorem hotspot_markers h :
  In h landslide_hotspots ->
  let m := hotspot_marker h in
  let cloudburst :=
    exists pre post, hs_name h = (pre ++ "Cloudburst" ++ post)%string in
  In m (markers risk_map) /\
  markers risk_map = map hotspot_marker landslide_hotspots /\
  length landslide_hotspots = 2 /\
  (icon_color (marker_icon m) = "red" <-> hs_risk h = "High") /\
  (hs_risk h <> "High" -> icon_color (marker_icon m) = "orange") /\
  (icon_name (marker_icon m) = "cloud" <-> cloudburst) /\
  (~ cloudburst -> icon_name (marker_icon m) = "bolt").
Proof.
  intros Hin m cloudburst. subst m cloudburst.
  assert (Hmap : markers risk_map = map hotspot_marker landslide_hotspots)
    by reflexivity.
  split; [rewrite Hmap; now apply in_map |].
  split; [exact Hmap |]. split; [reflexivity |].
  rewrite <- contains_spec. unfold hotspot_marker. cbn [marker_icon icon_color icon_name].
  destruct (String.eqb_spec (hs_risk h) "High") as [Hhigh | Hother];
    destruct (contains "Cloudburst" (hs_name h));
    repeat split; intros; try reflexivity; try assumption; try congruence;
    try discriminate.
Qed.

Lemma hotspot_markers_witness :
  icon_color (marker_icon
                (hotspot_marker
                   (mk_hotspot (PyFloat "32.78") (PyFloat "74.92")
                               "Nagrota" "High"))) = "red"
  /\ icon_name (marker_icon
                  (hotspot_marker
                     (mk_hotspot (PyFloat "32.75") (PyFloat "74.88")
                                 "Jammu City" "Medium"))) = "bolt".
Proof.
  split.
  - apply (hotspot_markers
             (mk_hotspot (PyFloat "32.78") (PyFloat "74.92") "Nagrota" "High")).
    + cbn. tauto.
    + reflexivity.
  - destruct (hotspot_markers
                (mk_hotspot (PyFloat "32.75") (PyFloat "74.88")
                            "Jammu City" "Medium"))
      as [_ [_ [_ [_ [_ [_ Hbolt]]]]]].
    + cbn. tauto.
    + apply Hbolt. intros Hcloud. apply contains_spec in Hcloud.
      vm_compute in Hcloud. discriminate.
Defined.

(* ===================================================================== *)
(** ** [get_data.py] *)

(** One run of the script, branch by branch. *)
Lemma get_data_run w disk :
  GetData.script w disk =
  let jammu := mkPoint GetData.JAMMU_LAT GetData.JAMMU_LON 327 in
  let start := mk_datetime 2020 1 1 0 in
  let hello := GetData.Printed "Fetching historical data from Meteostat..." in
  let fetch := GetData.Fetched jammu start (clock w) in
  match meteostat w jammu start (clock w) with
  | Raise e =>
      ([hello; fetch; GetData.Printed ("An error occurred: " ++ exn_msg e)],
       Return tt)
  | Return df =>
      if empty df then
        ([hello; fetch;
          GetData.Printed "Meteostat returned no data. CSV file not created."],
         Return tt)
      else
        match disk fallback_csv df with
        | None =>
            ([hello; fetch; GetData.ToCsv fallback_csv df;
              GetData.Printed "Successfully saved data to jammu_historical_weather.csv"],
             Return tt)
        | Some e =>
            ([hello; fetch; GetData.ToCsv fallback_csv df;
              GetData.Printed ("An error occurred: " ++ exn_msg e)],
             Return tt)
        end
  end.
Proof.
  unfold GetData.script, out_try, out_bind, out_emit, out_lift, fallback_csv.
  cbv zeta.
  destruct (meteostat w _ _ (clock w)) as [df | e]; [| reflexivity].
  destruct (empty df); cbn [negb]; [reflexivity |].
  destruct (disk _ df); reflexivity.
Qed.

Lemma get_historical_data_fetches w lat lon start_date end_date :
  In (EvMeteostat (mkPoint lat lon 327) start_date end_date)
     (trace (get_historical_data lat lon start_date end_date w)).
Proof. historical_cases w; cbn; tauto. Qed.

Lemma get_data_fetched w disk location start_date end_date :
  In (GetData.Fetched location start_date end_date)
     (fst (GetData.script w disk)) <->
  GetData.Fetched location start_date end_date
  = GetData.Fetched (mkPoint GetData.JAMMU_LAT GetData.JAMMU_LON 327)
                    (mk_datetime 2020 1 1 0) (clock w).
Proof.
  rewrite get_data_run. cbv zeta.
  destruct (meteostat w _ _ (clock w)) as [df | e];
    [destruct (empty df); [| destruct (disk fallback_csv df)] |];
    cbn [fst In]; split; intros H; intuition (try discriminate; auto).
Qed.

(** X1.  [get_data.py] never ends with an exception, and it asks Meteostat
    exactly once, for the point and the period the dashboard asks for. *)
Theorem get_data_same_query w disk :
  snd (GetData.script w disk) = Return tt /\
  length (filter (fun a => match a with
                           | GetData.Fetched _ _ _ => true
                           | _ => false
                           end)
                 (fst (GetData.script w disk))) = 1 /\
  forall location start_date end_date,
    In (GetData.Fetched location start_date end_date)
       (fst (GetData.script w disk)) <->
    In (EvMeteostat location start_date end_date) (trace (historical_stage w)).
Proof.
  split; [| split].
  - rewrite get_data_run. cbv zeta.
    destruct (meteostat w _ _ (clock w)) as [df | e]; [| reflexivity].
    destruct (empty df); [reflexivity |].
    destruct (disk fallback_csv df); reflexivity.
  - rewrite get_data_run. cbv zeta.
    destruct (meteostat w _ _ (clock w)) as [df | e]; [| reflexivity].
    destruct (empty df); [reflexivity |].
    destruct (disk fallback_csv df); reflexivity.
  - intros location start_date end_date. rewrite get_data_fetched.
    unfold historical_stage. split.
    + intros H. inversion H; subst. apply get_historical_data_fetches.
    + intros H. apply get_historical_data_fetch in H; [| reflexivity].
      inversion H; subst. reflexivity.
Qed.

(** X2.  The script writes a file exactly when the fetch returned a
    non-empty frame: it writes that frame, once, to the path the
    dashboard falls back on; it announces success exactly when the write
    did not fail. *)
Theorem get_data_writes w disk path df :
  let jammu := mkPoint GetData.JAMMU_LAT GetData.JAMMU_LON 327 in
  let out := fst (GetData.script w disk) in
  (In (GetData.ToCsv path df) out <->
   path = fallback_csv /\
   meteostat w jammu (mk_datetime 2020 1 1 0) (clock w) = Return df /\
   empty df = false) /\
  length (filter (fun a => match a with GetData.ToCsv _ _ => true | _ => false end)
                 out) <= 1 /\
  (In (GetData.Printed "Successfully saved data to jammu_historical_weather.csv")
      out <->
   exists d, meteostat w jammu (mk_datetime 2020 1 1 0) (clock w) = Return d /\
             empty d = false /\ disk fallback_csv d = None).
Proof.
  cbv zeta. rewrite get_data_run. cbv zeta.
  destruct (meteostat w _ _ (clock w)) as [d | e];
    [destruct (empty d) eqn:Hempty;
       [| destruct (disk fallback_csv d) eqn:Hdisk] |];
    cbn [fst In filter length]; (split; [| split; [lia |]]); split.
  all: try (intros [Hp [Hd He]]; inversion Hd; subst; first [congruence | tauto]).
  all: try (intros [d' [Hd [He Hw]]]; inversion Hd; subst;
            first [congruence | tauto]).
  all: intros Hin;
    repeat match goal with
    | Hor : _ \/ _ |- _ => destruct Hor as [Hor | Hor]
    end;
    try contradiction; try discriminate.
  all: try (inversion Hin; subst; auto).
  all: eauto.
Qed.

Lemma get_data_writes_witness :
  In (GetData.ToCsv fallback_csv (Samples.daily_frame 3))
     (fst (GetData.script (Samples.online 3 0) Samples2.disk_ok)).
Proof.
  apply (get_data_writes (Samples.online 3 0) Samples2.disk_ok).
  repeat split.
Defined.

(* ===================================================================== *)
(** ** Error paths of the fetch stage *)

Lemma key_lookup_run w :
  OPENWEATHER_API_KEY w =
  match secrets_api_key w with
  | Return key => ([], Return (Some key))
  | Raise e =>
      if is_KeyError e || is_FileNotFoundError e then
        ([EvStreamlit st_error "OpenWeather API key not found. Please add it to your .streamlit/secrets.toml file."],
         Return None)
      else ([], Raise e)
  end.
Proof.
  unfold OPENWEATHER_API_KEY, try_except, bind, ask, ret, st, emit.
  destruct (secrets_api_key w) as [key | e]; [reflexivity |].
  destruct (is_KeyError e || is_FileNotFoundError e); reflexivity.
Qed.

(** X3.  A secrets lookup that fails with [KeyError] or
    [FileNotFoundError] does not stop the run: the error message comes
    first, Meteostat is still asked once, no OpenWeather request is sent
    and the real-time data are [None].  Any other exception from the
    lookup ends the run before anything else happens. *)
Theorem secrets_lookup_failure w e :
  secrets_api_key w = Raise e ->
  let r := fetch_data_for_all_tabs w in
  (is_KeyError e || is_FileNotFoundError e = true ->
     (exists rest,
        trace r =
        EvStreamlit st_error "OpenWeather API key not found. Please add it to your .streamlit/secrets.toml file."
        :: rest) /\
     count is_meteostat (trace r) = 1 /\
     count is_http_get (trace r) = 0 /\
     forall d, result r = Return d -> real_time_data d = None) /\
  (is_KeyError e || is_FileNotFoundError e = false -> r = ([], Raise e)).
Proof.
  intros Hsecret r. subst r.
  pose proof (key_lookup_run w) as Hkey. rewrite Hsecret in Hkey.
  assert (Hconf : configured_key w = None).
  { unfold configured_key. now rewrite Hsecret. }
  split; intros Hclass; rewrite Hclass in Hkey.
  - split; [| split; [| split]].
    + rewrite run_stages, Hkey. cbn [trace result fst snd app]. eauto.
    + rewrite run_meteostat_count, Hkey. reflexivity.
    + rewrite run_http_count, Hkey, Hconf. cbn [result snd falsy].
      destruct (result (historical_stage w)) as [h | ex]; [| reflexivity].
      destruct (result (get_forecast_data h w)); reflexivity.
    + intros d Hd. apply run_completes in Hd as [key [_ [_ [_ Hrt]]]].
      unfold real_time_stage in Hrt. rewrite Hconf in Hrt.
      cbn in Hrt. congruence.
  - unfold fetch_data_for_all_tabs. unfold bind at 1. now rewrite Hkey.
Qed.

Lemma secrets_lookup_failure_witness :
  count is_http_get (trace (fetch_data_for_all_tabs Samples.offline)) = 0.
Proof.
  destruct (secrets_lookup_failure Samples.offline (Exn KeyError "'api'")
              eq_refl) as [Hsoft _].
  apply (Hsoft eq_refl).
Defined.

(** X4.  [get_historical_data] raises in one situation only: the Meteostat
    fetch failed and reading the fallback file raised something other
    than [FileNotFoundError]; that exception comes out unchanged, right
    after the read. *)
Theorem historical_raises w lat lon start_date end_date ex :
  let r := get_historical_data lat lon start_date end_date w in
  (result r = Raise ex <->
   fetch_failed w lat lon start_date end_date /\
   csv_files w fallback_csv = Raise ex /\
   is_FileNotFoundError ex = false) /\
  (result r = Raise ex ->
   exists level text,
     trace r =
     [EvStreamlit st_info "Fetching historical data from Meteostat...";
      EvMeteostat (mkPoint lat lon 327) start_date end_date;
      EvStreamlit level text;
      EvReadCsv fallback_csv 0 true]).
Proof.
  cbv zeta. split; [split |].
  - historical_cases w; intros H; try discriminate; inversion H; subst;
      auto.
  - historical_cases w; intros [Hfail [Hread Hclass]];
      try discriminate; try congruence.
  - historical_cases w; intros H; try discriminate; eauto.
Qed.

Lemma historical_raises_witness :
  result (get_historical_data JAMMU_LAT JAMMU_LON Samples.since Samples.today
                              Samples2.damaged_csv)
  = Raise Samples2.parse_error.
Proof.
  apply (historical_raises Samples2.damaged_csv). repeat split.
Defined.



(* ===================================================================== *)
(** ** From the historical frame to the model *)

Lemma relabel_to_ds l :
  relabel [("time", "ds"); ("prcp", "y")] l = "ds" -> l = "time" \/ l = "ds".
Proof.
  rewrite relabel_time_prcp.
  destruct (String.eqb_spec "time" l); [auto |].
  destruct (String.eqb_spec "prcp" l); [discriminate | auto].
Qed.

(** X6.  The forecast needs a [time] (or [ds]) label on the historical
    frame.  On a non-empty frame with a [prcp] column whose index is named
    neither [time] nor [ds] and that has no column named [time] or [ds],
    [get_forecast_data] raises with an empty trace, so nothing is shown
    and Prophet is not called: the exception is the one [reset_index]
    raised, or, when [reset_index] went through, the [KeyError] of the
    column selection of line 87. *)
Theorem forecast_needs_time_index w df :
  empty df = false -> In "prcp" (columns df) ->
  index_name df <> Some "time" -> index_name df <> Some "ds" ->
  ~ In "time" (columns df) -> ~ In "ds" (columns df) ->
  exists e,
    get_forecast_data df w = ([], Raise e) /\
    match reset_index df with
    | Return _ => exn_cls e = KeyError
    | Raise e' => e = e'
    end.
Proof.
  intros Hempty Hprcp Hname Hname' Htime Hds.
  rewrite get_forecast_data_run, Hempty.
  apply has_column_In in Hprcp. rewrite Hprcp. cbn [negb orb].
  unfold prepare. destruct (reset_index df) as [d | e] eqn:Hreset;
    [| now exists e].
  apply reset_index_columns in Hreset as [label [Hcols [Hfresh Hlabel]]].
  assert (Hno : has_column "ds" (rename [("time", "ds"); ("prcp", "y")] d)
                = false).
  { destruct (has_column "ds" _) eqn:Hhas; [| reflexivity]. exfalso.
    apply has_column_In in Hhas. rewrite rename_columns, Hcols in Hhas.
    apply in_map_iff in Hhas as [l [Hl Hin]].
    apply relabel_to_ds in Hl. destruct Hin as [<- | Hin].
    - destruct Hlabel as [H | [H | H]], Hl as [Hl | Hl]; subst;
        try congruence; try discriminate.
    - destruct Hl; subst; contradiction. }
  unfold getitem. cbn [find]. rewrite Hno. cbn [negb].
  eexists. split; reflexivity.
Qed.

Lemma forecast_needs_time_index_witness :
  exists e,
    get_forecast_data (Samples2.dated_frame 40) (Samples.online 31 40)
    = ([], Raise e) /\
    match reset_index (Samples2.dated_frame 40) with
    | Return _ => exn_cls e = KeyError
    | Raise e' => e = e'
    end.
Proof.
  apply forecast_needs_time_index; try discriminate; try reflexivity.
  - cbn. tauto.
  - cbn. intuition discriminate.
  - cbn. intuition discriminate.
Defined.

Lemma keep_length {A} (m : list bool) (l : list A) :
  length m <= length l ->
  length (keep m l) = length (filter (fun b : bool => b) m).
Proof.
  revert l. induction m as [| b m IH]; intros [| x l] Hlen; cbn in *;
    try reflexivity; try lia.
  destruct b; cbn; rewrite IH by lia; reflexivity.
Qed.

Lemma zip_and_length a b :
  length (zip_and a b) = Nat.min (length a) (length b).
Proof.
  revert b. induction a as [| x a IH]; intros [| y b]; cbn; auto.
Qed.

Lemma mask_le_zip m a b :
  mask_le m a -> mask_le m b -> mask_le m (zip_and a b).
Proof.
  unfold mask_le.
  intros Ha. revert b. induction Ha as [| x y m a Hxy Ha IH]; intros b Hb;
    inversion Hb; subst; cbn; constructor.
  - intros Hx. apply andb_true_intro. auto.
  - now apply IH.
Qed.

Lemma mask_le_refl m : mask_le m m.
Proof. unfold mask_le. induction m; constructor; auto. Qed.

Lemma mask_le_trans a b c : mask_le a b -> mask_le b c -> mask_le a c.
Proof.
  unfold mask_le.
  intros Hab. revert c. induction Hab; intros c Hbc; inversion Hbc; subst;
    constructor; auto.
Qed.

Lemma zip_and_le a b :
  length a = length b -> mask_le (zip_and a b) a /\ mask_le (zip_and a b) b.
Proof.
  unfold mask_le.
  revert b. induction a as [| x a IH]; intros [| y b] Hlen; cbn in *;
    try discriminate; [split; constructor |].
  destruct (IH b) as [Hl Hr]; [lia |].
  split; constructor; auto; intros H; apply andb_prop in H; tauto.
Qed.

Lemma mask_le_all_true (m : list bool) {A} (l : list A) :
  length m = length l -> mask_le m (map (fun _ => true) l).
Proof.
  unfold mask_le.
  revert l. induction m as [| b m IH]; intros [| x l] Hlen; cbn in *;
    try discriminate; constructor; auto.
Qed.

Lemma mask_le_count a b :
  mask_le a b ->
  length (filter (fun x : bool => x) a) <= length (filter (fun x : bool => x) b).
Proof.
  unfold mask_le.
  induction 1 as [| x y a b Hxy Hab IH]; cbn; [lia |].
  destruct x; [rewrite (Hxy eq_refl); cbn; lia |].
  destruct y; cbn; lia.
Qed.

Lemma fold_mask_length (idx : list value) (cols : list (string * list value)) :
  (forall c, In c cols -> length (snd c) = length idx) ->
  length (fold_right (fun (c : string * list value) m => zip_and (map notna (snd c)) m)
                     (map (fun _ => true) idx) cols) = length idx.
Proof.
  induction cols as [| c cols IH]; cbn; intros Hwf.
  - now rewrite length_map.
  - rewrite zip_and_length, length_map, IH by auto.
    rewrite (Hwf c (or_introl eq_refl)). apply Nat.min_id.
Qed.

Lemma complete_rows_length df :
  well_formed df -> length (complete_rows df) = len df.
Proof. intros Hwf. now apply fold_mask_length. Qed.

Lemma fold_mask_le_column (idx : list value) (cols : list (string * list value)) c :
  (forall c, In c cols -> length (snd c) = length idx) ->
  In c cols ->
  mask_le (fold_right (fun (c : string * list value) m => zip_and (map notna (snd c)) m)
                      (map (fun _ => true) idx) cols)
          (map notna (snd c)).
Proof.
  induction cols as [| c0 cols IH]; cbn; intros Hwf Hin; [contradiction |].
  destruct (zip_and_le (map notna (snd c0))
              (fold_right (fun (c : string * list value) m => zip_and (map notna (snd c)) m)
                          (map (fun _ => true) idx) cols))
    as [Hl Hr].
  { rewrite length_map, fold_mask_length by auto. apply Hwf. now left. }
  destruct Hin as [<- | Hin]; [exact Hl |].
  eapply mask_le_trans; [exact Hr |]. apply IH; auto.
Qed.

(** A complete row has a value in each column. *)
Lemma complete_rows_le_column df c :
  well_formed df -> In c (series df) ->
  mask_le (complete_rows df) (map notna (snd c)).
Proof. intros Hwf Hin. now apply fold_mask_le_column. Qed.

(** Dropping columns, or adding columns without gaps, keeps every
    complete row complete. *)
Lemma complete_rows_mono (m : list bool) (idx : list value)
      (cols : list (string * list value)) :
  length m = length idx ->
  (forall c, In c cols -> mask_le m (map notna (snd c))) ->
  mask_le m (fold_right (fun (c : string * list value) acc => zip_and (map notna (snd c)) acc)
                        (map (fun _ => true) idx) cols).
Proof.
  intros Hlen. induction cols as [| c cols IH]; cbn; intros Hcols.
  - now apply mask_le_all_true.
  - apply mask_le_zip; [apply Hcols; now left |]. apply IH. auto.
Qed.

Lemma mask_le_length a b : mask_le a b -> length a = length b.
Proof. unfold mask_le. induction 1; cbn; congruence. Qed.

Lemma notna_all (l : list value) :
  forallb notna l = true -> map notna l = map (fun _ => true) l.
Proof.
  induction l as [| v l IH]; cbn; [reflexivity |].
  intros H. apply andb_prop in H as [-> Hl]. now rewrite IH.
Qed.

(** What lines 86-90 build from a frame indexed by [time]. *)
Lemma prepare_time_indexed df :
  index_name df = Some "time" -> ~ In "time" (columns df) ->
  In "prcp" (columns df) ->
  exists selected,
    prepare df = Return (dropna selected) /\
    index selected = RangeIndex (len df) /\
    forall c, In c (series selected) ->
              snd c = index df \/ exists c0, In c0 (series df) /\ snd c = snd c0.
Proof.
  intros Hname Htime Hprcp. unfold prepare, reset_index. rewrite Hname.
  destruct (has_column "time" df) eqn:Hhas;
    [apply has_column_In in Hhas; contradiction |].
  set (d2 := rename _ _).
  assert (Hds : has_column "ds" d2 = true) by reflexivity.
  assert (Hy : has_column "y" d2 = true).
  { apply has_column_In. subst d2. rewrite rename_columns.
    apply in_map_iff. exists "prcp". split; [reflexivity |].
    unfold columns. cbn [series map fst]. now right. }
  unfold getitem. cbn [find]. rewrite Hds, Hy. cbn [negb].
  eexists. split; [reflexivity |]. split; [reflexivity |].
  cbn [series]. intros c Hc.
  apply in_flat_map in Hc as [l [_ Hc]]. apply filter_In in Hc as [Hc _].
  subst d2. unfold rename in Hc. cbn [series] in Hc.
  apply in_map_iff in Hc as [c0 [<- Hc0]]. cbn [snd].
  destruct Hc0 as [<- | Hc0]; [now left | right; eauto].
Qed.

(** X7.  Data that pass the test of line 45 reach the model when the
    frame is shaped as Meteostat returns it: well formed, with the index
    named [time], no column named [time] and no missing index label.  On
    such a frame every row that is complete over all columns is complete
    over (ds, y): the prepared frame keeps at least as many rows as
    [dropna] left in the sufficiency test, so more than 30, and Prophet
    is fit on it. *)
Theorem sufficient_data_reach_the_model w df :
  well_formed df -> sufficient df = true ->
  index_name df = Some "time" -> ~ In "time" (columns df) ->
  forallb notna (index df) = true ->
  exists p,
    prepare df = Return p /\
    len (dropna df) <= len p /\ 30 < len p /\
    In (EvProphetFit p) (trace (get_forecast_data df w)).
Proof.
  intros Hwf Hsuff Hname Htime Hindex.
  pose proof Hsuff as Hspec. apply sufficient_spec in Hspec
    as [Hempty [Hprcp Hrows]].
  destruct (prepare_time_indexed df Hname Htime Hprcp)
    as [selected [Hprep [Hidx Hcols]]].
  assert (Hmono : mask_le (complete_rows df) (complete_rows selected)).
  { unfold complete_rows at 2. rewrite Hidx.
    apply complete_rows_mono.
    - rewrite complete_rows_length, RangeIndex_length by assumption.
      reflexivity.
    - intros c Hc. destruct (Hcols c Hc) as [-> | [c0 [Hc0 ->]]].
      + rewrite (notna_all _ Hindex). apply mask_le_all_true.
        now apply complete_rows_length.
      + now apply complete_rows_le_column. }
  assert (Hkeep : len (dropna df) <= len (dropna selected)).
  { unfold len, dropna. cbn [index]. rewrite !keep_length.
    - now apply mask_le_count.
    - rewrite <- (mask_le_length _ _ Hmono), Hidx, RangeIndex_length.
      rewrite complete_rows_length by assumption. reflexivity.
    - rewrite complete_rows_length by assumption. reflexivity. }
  exists (dropna selected). split; [assumption |]. split; [assumption |].
  split; [lia |].
  rewrite get_forecast_data_run, Hempty.
  apply has_column_In in Hprcp. rewrite Hprcp, Hprep. cbn [negb orb].
  destruct (Nat.ltb_spec (len (dropna selected)) 30) as [Hlt | _]; [lia |].
  destruct (run_prophet_trace w (dropna selected)) as [rest [-> _]].
  cbn. tauto.
Qed.

Lemma sufficient_data_reach_the_model_witness :
  exists p,
    prepare (Samples.daily_frame 31) = Return p /\
    len (dropna (Samples.daily_frame 31)) <= len p /\ 30 < len p /\
    In (EvProphetFit p)
       (trace (get_forecast_data (Samples.daily_frame 31)
                                 (Samples.online 31 40))).
Proof.
  apply sufficient_data_reach_the_model; try reflexivity.
  - intros c Hc. cbn in Hc. destruct Hc as [<- | [<- | []]]; reflexivity.
  - cbn. intuition discriminate.
Defined.

(* ===================================================================== *)
(** ** The order of the stages *)

(** The outcome of a run is that of its first failing stage. *)
Lemma run_result w :
  result (fetch_data_for_all_tabs w) =
  match result (OPENWEATHER_API_KEY w) with
  | Raise e => Raise e
  | Return _ =>
      match result (historical_stage w) with
      | Raise e => Raise e
      | Return h =>
          match result (get_forecast_data h w) with
          | Raise e => Raise e
          | Return f =>
              match result (real_time_stage w) with
              | Raise e => Raise e
              | Return now => Return (mk_data h f now)
              end
          end
      end
  end.
Proof.
  unfold fetch_data_for_all_tabs, historical_stage, real_time_stage.
  rewrite result_bind.
  destruct (result (OPENWEATHER_API_KEY w)) as [key | e] eqn:Hkey;
    [| reflexivity].
  apply key_lookup_result in Hkey. subst key.
  rewrite result_bind. cbn [st emit trace result fst snd].
  rewrite result_bind. cbn [emit trace result fst snd].
  rewrite result_bind. cbn [ask trace result fst snd].
  rewrite result_bind.
  destruct (result (get_historical_data _ _ _ _ w)) as [h | e];
    [| reflexivity].
  rewrite result_bind.
  destruct (result (get_forecast_data h w)) as [f | e]; [| reflexivity].
  rewrite result_bind.
  destruct (result (get_real_time_data _ _ _ w)); reflexivity.
Qed.

(** X8.  Nothing around the historical and the forecast stage catches
    their exceptions.  When the fallback read or the forecast raises (a
    damaged CSV, the [KeyError] of line 87, a failure inside Prophet),
    the run ends with that exception, the OpenWeather request is never
    sent and no tab is drawn. *)
Theorem failure_stops_the_run rt w e :
  (exists key, result (OPENWEATHER_API_KEY w) = Return key) ->
  (result (historical_stage w) = Raise e \/
   exists h, result (historical_stage w) = Return h /\
             result (get_forecast_data h w) = Raise e) ->
  result (fetch_data_for_all_tabs w) = Raise e /\
  count is_http_get (trace (fetch_data_for_all_tabs w)) = 0 /\
  snd (app_py rt w) = ([], Raise e).
Proof.
  intros [key Hkey] Hfail.
  assert (Hres : result (fetch_data_for_all_tabs w) = Raise e).
  { rewrite run_result, Hkey.
    destruct Hfail as [-> | [h [-> ->]]]; reflexivity. }
  split; [assumption |]. split.
  - rewrite run_http_count, Hkey.
    destruct Hfail as [-> | [h [-> ->]]]; reflexivity.
  - unfold app_py. unfold result in Hres.
    destruct (fetch_data_for_all_tabs w) as [t r]. cbn in *. now subst r.
Qed.

Lemma failure_stops_the_run_witness :
  count is_http_get (trace (fetch_data_for_all_tabs Samples2.damaged_csv)) = 0
  /\ count is_http_get (trace (fetch_data_for_all_tabs Samples2.stan_down)) = 0.
Proof.
  split.
  - apply (failure_stops_the_run Samples2.utc Samples2.damaged_csv
             Samples2.parse_error).
    + eexists. reflexivity.
    + left. reflexivity.
  - apply (failure_stops_the_run Samples2.utc Samples2.stan_down
             (Exn (OtherException "RuntimeError") "Error during optimization!")).
    + eexists. reflexivity.
    + right. eexists. split; [reflexivity | vm_compute; reflexivity].
Defined.

Lemma count_In p (t : list event) ev :
  In ev t -> p ev = true -> 1 <= count p t.
Proof.
  unfold count. induction t as [| x t IH]; cbn; [contradiction |].
  intros [<- | Hin] Hp; [rewrite Hp; cbn; lia |].
  specialize (IH Hin Hp). destruct (p x); cbn; lia.
Qed.

Lemma get_real_time_data_shape w key lat lon :
  key <> "" ->
  exists tail,
    trace (get_real_time_data (Some key) lat lon w)
      = EvHttpGet (weather_url key lat lon) 10 :: tail /\
    (tail = [] \/ exists text, tail = [EvStreamlit st_error text]).
Proof.
  intros Hkey. rewrite (get_real_time_data_run w key lat lon Hkey).
  real_time_cases w; eexists; split; try reflexivity; eauto.
Qed.

(** X9.  Within [fetch_data_for_all_tabs], the data stage that runs
    before any tab is drawn, the OpenWeather request comes last.  When a
    request is in the trace of that stage, exactly one Meteostat fetch,
    no other request and every Prophet call of the stage lie before it,
    and nothing follows it in that trace but, at most, one error
    message. *)
Theorem request_comes_last w url timeout :
  In (EvHttpGet url timeout) (trace (fetch_data_for_all_tabs w)) ->
  exists before after,
    trace (fetch_data_for_all_tabs w)
      = before ++ EvHttpGet url timeout :: after /\
    count is_meteostat before = 1 /\
    count is_http_get before = 0 /\
    filter is_prophet before
      = filter is_prophet (trace (fetch_data_for_all_tabs w)) /\
    (after = [] \/ exists text, after = [EvStreamlit st_error text]).
Proof.
  intros Hin.
  pose proof (count_In is_http_get _ _ Hin eq_refl) as Hsent.
  pose proof (run_meteostat_count w) as Hmet.
  pose proof (run_prophet_events w) as Hpro.
  rewrite run_http_count in Hsent. revert Hin Hmet Hpro.
  rewrite run_stages.
  destruct (result (OPENWEATHER_API_KEY w)) as [key0 | ?]; [| lia].
  destruct (result (historical_stage w)) as [h | ?]; [| lia].
  destruct (result (get_forecast_data h w)) as [f | ?]; [| lia].
  destruct (falsy (configured_key w)) eqn:Hfalsy; [lia |].
  unfold real_time_stage.
  destruct (configured_key w) as [key |]; [| discriminate].
  apply falsy_Some in Hfalsy.
  destruct (get_real_time_data_shape w key JAMMU_LAT JAMMU_LON Hfalsy)
    as [after [-> Hafter]].
  set (key_t := trace (OPENWEATHER_API_KEY w)).
  set (hist_t := trace (historical_stage w)).
  set (fc_t := trace (get_forecast_data h w)).
  set (head := [EvStreamlit st_title _; EvTabs _]).
  intros Hin Hmet Hpro.
  set (get := EvHttpGet (weather_url key JAMMU_LAT JAMMU_LON) 10) in *.
  assert (Hquiet : count is_http_get (key_t ++ head ++ hist_t ++ fc_t) = 0).
  { rewrite !count_app. subst key_t hist_t fc_t. unfold historical_stage.
    rewrite (count_only_zero _ is_http_get _ w key_lookup_only) by excluded.
    rewrite (count_only_zero _ is_http_get _ w
               (get_historical_data_only _ _ _ _)) by excluded.
    rewrite (count_only_zero _ is_http_get _ w (get_forecast_data_only h))
      by excluded.
    reflexivity. }
  assert (Hev : EvHttpGet url timeout = get).
  { assert (Hany : forall ev, In ev (key_t ++ head ++ hist_t ++ fc_t) ->
                              is_http_get ev = false).
    { intros ev Hev. destruct (is_http_get ev) eqn:Hp; [| reflexivity].
      pose proof (count_In is_http_get _ _ Hev Hp). lia. }
    rewrite !in_app_iff in Hin.
    assert (Hin' : In (EvHttpGet url timeout)
                      (key_t ++ head ++ hist_t ++ fc_t) \/
                   In (EvHttpGet url timeout) (get :: after)).
    { rewrite !in_app_iff. tauto. }
    destruct Hin' as [Hpre | [Hget | Hafter']].
    - specialize (Hany _ Hpre). discriminate.
    - now symmetry.
    - destruct Hafter as [-> | [text ->]]; cbn in Hafter';
        intuition discriminate. }
  exists (key_t ++ head ++ hist_t ++ fc_t), after. rewrite Hev.
  split; [now rewrite <- !app_assoc |]. split; [| split; [assumption |]].
  - replace (key_t ++ head ++ hist_t ++ fc_t ++ get :: after)
      with ((key_t ++ head ++ hist_t ++ fc_t) ++ get :: after) in Hmet
      by now rewrite <- !app_assoc.
    rewrite count_app in Hmet.
    assert (Hzero : count is_meteostat (get :: after) = 0).
    { destruct Hafter as [-> | [text ->]]; reflexivity. }
    lia.
  - split; [| assumption].
    rewrite !filter_app. cbn [filter is_prophet is_prophet_init is_prophet_fit
                                     is_make_future is_predict get orb].
    assert (Hzero : filter is_prophet after = []).
    { destruct Hafter as [-> | [text ->]]; reflexivity. }
    subst get. cbn. rewrite Hzero, !app_nil_r. reflexivity.
Qed.

Lemma request_comes_last_witness :
  exists before after,
    trace (fetch_data_for_all_tabs (Samples.online 31 40))
      = before ++ EvHttpGet (weather_url "k3y" JAMMU_LAT JAMMU_LON) 10 :: after /\
    count is_meteostat before = 1 /\
    count is_http_get before = 0 /\
    filter is_prophet before
      = filter is_prophet (trace (fetch_data_for_all_tabs (Samples.online 31 40))) /\
    (after = [] \/ exists text, after = [EvStreamlit st_error text]).
Proof.
  apply request_comes_last. vm_compute. tauto.
Defined.

(* ===================================================================== *)
(** ** The tabs *)

(** [has_duplicates] is the negation of [NoDup]. *)
Lemma has_duplicates_NoDup labels :
  has_duplicates labels = false <-> NoDup labels.
Proof.
  induction labels as [| l rest IH]; cbn.
  - split; [constructor | reflexivity].
  - rewrite orb_false_iff, IH. split.
    + intros [Hl Hrest]. constructor; [| assumption].
      intros Hin.
      assert (H : existsb (String.eqb l) rest = true).
      { apply existsb_exists. exists l. split; [assumption |].
        apply String.eqb_refl. }
      congruence.
    + intros H. inversion H as [| ? ? Hnot Hrest]; subst.
      split; [| assumption].
      destruct (existsb (String.eqb l) rest) eqn:Hex; [| reflexivity].
      apply existsb_exists in Hex as [l' [Hin Heq]].
      apply String.eqb_eq in Heq. subst l'. contradiction.
Qed.

(** X10.  The Historical Trends tab.  A frame that is empty or lacks a
    [prcp] or a [tavg] column gets the header and the warning, also when
    it passed the test of line 45, and the tab returns.  A non-empty
    frame with both columns and no repeated column label gets the
    rainfall and the temperature chart, both over the index of the frame,
    and the tab returns.  A non-empty frame with both columns and a
    repeated column label makes [px.line] raise: the header is all that
    is drawn and the exception leaves the tab.  So the tab returns
    exactly when the frame is incomplete or its labels are distinct. *)
Theorem historical_tab_draws df :
  let complete :=
    empty df = false /\ In "prcp" (columns df) /\ In "tavg" (columns df) in
  (~ complete ->
   historical_tab df =
   ([WHeader "Historical Weather Trends";
     WWarning "Historical data could not be loaded or is incomplete."],
    Return tt)) /\
  (complete -> NoDup (columns df) ->
   historical_tab df =
   ([WHeader "Historical Weather Trends";
     WPlotly (mk_figure df (XValues (index df)) "prcp"
                        "Daily Rainfall in Jammu (mm)" []);
     WPlotly (mk_figure df (XValues (index df)) "tavg"
                        "Average Daily Temperature in Jammu (°C)" [])],
    Return tt)) /\
  (complete -> ~ NoDup (columns df) ->
   fst (historical_tab df) = [WHeader "Historical Weather Trends"] /\
   exists e, snd (historical_tab df) = Raise e) /\
  (snd (historical_tab df) = Return tt <->
   ~ complete \/ NoDup (columns df)).
Proof.
  cbv zeta. rewrite <- !has_column_In, <- has_duplicates_NoDup.
  unfold historical_tab, px_line.
  destruct (empty df), (has_column "prcp" df), (has_column "tavg" df),
           (has_duplicates (columns df)); cbn;
    (split; [| split; [| split; [| split]]]); intros;
    try reflexivity; try tauto; try discriminate;
    try (exfalso; intuition congruence);
    try (split; [reflexivity | eexists; reflexivity]);
    try (left; intuition discriminate);
    try (right; reflexivity).
Qed.

Lemma historical_tab_draws_witness :
  historical_tab new_DataFrame =
  ([WHeader "Historical Weather Trends";
    WWarning "Historical data could not be loaded or is incomplete."],
   Return tt)
  /\ historical_tab (Samples.daily_frame 2) =
     ([WHeader "Historical Weather Trends";
       WPlotly (mk_figure (Samples.daily_frame 2)
                  (XValues (index (Samples.daily_frame 2))) "prcp"
                  "Daily Rainfall in Jammu (mm)" []);
       WPlotly (mk_figure (Samples.daily_frame 2)
                  (XValues (index (Samples.daily_frame 2))) "tavg"
                  "Average Daily Temperature in Jammu (°C)" [])],
      Return tt)
  /\ (fst (historical_tab Samples2.twin_frame)
        = [WHeader "Historical Weather Trends"]
      /\ exists e, snd (historical_tab Samples2.twin_frame) = Raise e).
Proof.
  split; [| split].
  - apply (historical_tab_draws new_DataFrame). intros [H _]. discriminate.
  - apply (historical_tab_draws (Samples.daily_frame 2)).
    + cbn. tauto.
    + apply has_duplicates_NoDup. reflexivity.
  - apply (historical_tab_draws Samples2.twin_frame).
    + cbn. tauto.
    + intros H. apply has_duplicates_NoDup in H. discriminate.
Defined.









(** Splits a tab along the lookups it performs. *)
Ltac tab_cases :=
  unfold out_bind, out_lift, show, out_emit;
  repeat match goal with
  | |- context [match ?x with Return _ => _ | Raise _ => _ end] =>
      let H := fresh "Hlookup" in destruct x eqn:H
  end;
  cbn [fst snd app].

(** X12.  The Real-time Weather tab shows either the warning or the
    readings, never both.  Without data ([None], or a payload that is
    false in Python) it shows the warning and returns.  With data, a tab
    that returns has drawn all of it: three metrics, the condition and
    the time of the last update.  A lookup that fails raises out of the
    tab after the widgets drawn so far, and no warning is shown. *)
Theorem real_time_tab_outcomes rt v :
  let out := real_time_tab rt v in
  (is_true v = false ->
   out = ([WHeader "Real-time Weather";
           WWarning "Real-time weather data could not be loaded. Please check your API key."],
          Return tt)) /\
  (is_true v = true -> snd out = Return tt ->
   exists t h s c u,
     fst out =
     [WHeader "Real-time Weather"; WColumns 3;
      WMetric 1 "Temperature" (t ++ " °C");
      WMetric 2 "Humidity" (h ++ "%");
      WMetric 3 "Wind Speed" (s ++ " m/s");
      WMarkdown ("**Current Condition:** " ++ c);
      WMarkdown ("**Last Updated:** " ++ u)]) /\
  (is_true v = true -> forall e, snd out = Raise e ->
   length (fst out) < 7 /\ forall text, ~ In (WWarning text) (fst out)).
Proof.
  cbv zeta. unfold real_time_tab, is_true.
  destruct v as [data |]; [| repeat split; intros; discriminate].
  destruct (truthy data); [| repeat split; intros; discriminate].
  split; [discriminate |]. split; intros _.
  - tab_cases; intros H; try discriminate. do 5 eexists. reflexivity.
  - intros e. tab_cases; intros H; try discriminate;
      (split; [cbn; lia |]); intros text Hin; cbn in Hin;
      intuition discriminate.
Qed.

Lemma real_time_tab_outcomes_witness :
  exists t h s c u,
    fst (real_time_tab Samples2.utc (Some Samples2.report)) =
    [WHeader "Real-time Weather"; WColumns 3;
     WMetric 1 "Temperature" (t ++ " °C");
     WMetric 2 "Humidity" (h ++ "%");
     WMetric 3 "Wind Speed" (s ++ " m/s");
     WMarkdown ("**Current Condition:** " ++ c);
     WMarkdown ("**Last Updated:** " ++ u)].
Proof.
  apply (real_time_tab_outcomes Samples2.utc (Some Samples2.report));
    reflexivity.
Defined.




(** The loop of lines 176-184 appends one marker per hotspot. *)
Lemma add_hotspots_markers hotspots m :
  markers (add_hotspots hotspots m) = markers m ++ map hotspot_marker hotspots
  /\ map_location (add_hotspots hotspots m) = map_location m
  /\ zoom_start (add_hotspots hotspots m) = zoom_start m.
Proof.
  unfold add_hotspots. revert m.
  induction hotspots as [| h hotspots IH]; intros m; cbn.
  - now rewrite app_nil_r.
  - destruct (IH (add_to (hotspot_marker h) m)) as [-> [-> ->]]. cbn.
    now rewrite <- app_assoc.
Qed.



(** X14.  The marker loop treats every list of hotspots alike: one marker
    per hotspot, in list order, after the markers already on the map, each
    at its hotspot's coordinates with a popup naming it and its risk; the
    centre and the zoom of the map are left alone.  The dashboard's map is
    this loop run over its hotspot list on a map centred on Jammu. *)
Theorem marker_loop hotspots m :
  markers (add_hotspots hotspots m) = markers m ++ map hotspot_marker hotspots /\
  map_location (add_hotspots hotspots m) = map_location m /\
  zoom_start (add_hotspots hotspots m) = zoom_start m /\
  (forall h,
     marker_location (hotspot_marker h) = (hs_lat h, hs_lon h) /\
     marker_popup (hotspot_marker h)
       = ("**" ++ hs_name h ++ "**<br>Risk: " ++ hs_risk h)%string /\
     icon_prefix (marker_icon (hotspot_marker h)) = "fa") /\
  risk_map = add_hotspots landslide_hotspots (mk_map (JAMMU_LAT, JAMMU_LON) 11 []).
Proof.
  destruct (add_hotspots_markers hotspots m) as [Hm [Hl Hz]].
  repeat split; assumption.
Qed.

(** X15.  With no data at all the page still comes up.  When Meteostat
    fails, the fallback file is missing and no API key is configured, the
    run completes: each of the three data tabs shows its warning and the
    risk map is drawn. *)
Theorem page_without_data rt w :
  fetch_failed w JAMMU_LAT JAMMU_LON (mk_datetime 2020 1 1 0) (clock w) ->
  (exists ex, csv_files w fallback_csv = Raise ex /\
              is_FileNotFoundError ex = true) ->
  falsy (configured_key w) = true ->
  (exists key, result (OPENWEATHER_API_KEY w) = Return key) ->
  result (fetch_data_for_all_tabs w)
    = Return (mk_data new_DataFrame new_DataFrame None) /\
  snd (app_py rt w) =
  ([WHeader "Historical Weather Trends";
    WWarning "Historical data could not be loaded or is incomplete.";
    WHeader "Rainfall Forecast";
    WWarning "Forecast could not be generated. Check the historical data.";
    WHeader "Real-time Weather";
    WWarning "Real-time weather data could not be loaded. Please check your API key.";
    WHeader "Disaster-Prone Areas & Risk Map";
    WFolium risk_map],
   Return tt).
Proof.
  intros Hfail [ex [Hcsv Hnf]] Hkey [key Hlookup].
  assert (Hhist : result (historical_stage w) = Return new_DataFrame).
  { unfold historical_stage. revert Hfail.
    historical_cases w; intros; try congruence. }
  assert (Hrun : result (fetch_data_for_all_tabs w)
                 = Return (mk_data new_DataFrame new_DataFrame None)).
  { rewrite run_result, Hlookup, Hhist. cbn [get_forecast_data].
    unfold real_time_stage.
    rewrite (get_real_time_data_no_key _ _ _ _ Hkey). reflexivity. }
  split; [assumption |].
  unfold app_py. unfold result in Hrun.
  destruct (fetch_data_for_all_tabs w) as [t r]. cbn in Hrun. subst r.
  reflexivity.
Qed.

Lemma page_without_data_witness :
  result (fetch_data_for_all_tabs Samples.offline)
    = Return (mk_data new_DataFrame new_DataFrame None).
Proof.
  apply (page_without_data Samples2.utc Samples.offline).
  - exact I.
  - exists Samples.no_file. split; reflexivity.
  - reflexivity.
  - eexists. reflexivity.
Defined.

(* ===================================================================== *)
(** ** What the messages say *)

(** X16.  [get_forecast_data] is silent on an empty frame and on a frame
    without [prcp]: it returns the empty forecast without a message.  Its
    warning appears exactly when the prepared frame has fewer than 30
    rows, and it states that number. *)
Theorem forecast_warning w df :
  (empty df = true \/ ~ In "prcp" (columns df) ->
   trace (get_forecast_data df w) = []) /\
  (forall text,
     In (EvStreamlit st_warning text) (trace (get_forecast_data df w)) <->
     empty df = false /\ In "prcp" (columns df) /\
     exists p, prepare df = Return p /\ len p < 30 /\
               text = ("Not enough data to generate a forecast. Only "
                       ++ str_nat (len p) ++ " data points available.")%string).
Proof.
  rewrite get_forecast_data_run.
  destruct (empty df) eqn:Hempty; cbn [orb].
  { split; [reflexivity |]. intros text. cbn.
    split; [contradiction | intros [H _]; discriminate]. }
  destruct (has_column "prcp" df) eqn:Hprcp; cbn [negb].
  2:{ split; [reflexivity |]. intros text. cbn.
      split; [contradiction |].
      intros [_ [H _]]. apply has_column_In in H. congruence. }
  apply has_column_In in Hprcp.
  split; [intros [H | H]; [discriminate H | contradiction] |].
  intros text. destruct (prepare df) as [p | e].
  - destruct (Nat.ltb_spec (len p) 30) as [Hlt | Hge].
    + unfold trace, fst, In. split.
      * intros [H | []]. inversion H. repeat split; try assumption.
        exists p. auto.
      * intros [_ [_ [p' [Hp [_ ->]]]]]. inversion Hp. now left.
    + destruct (run_prophet_trace w p) as [rest [-> Hrest]]. split.
      * destruct Hrest as [-> | [-> | [future ->]]]; cbn;
          intuition discriminate.
      * intros [_ [_ [p' [Hp [Hlt _]]]]]. inversion Hp; subst. lia.
  - cbn. split; [contradiction |].
    intros [_ [_ [p' [Hp _]]]]. discriminate.
Qed.

Lemma forecast_warning_witness :
  trace (get_forecast_data new_DataFrame Samples.offline) = [].
Proof.
  apply (forecast_warning Samples.offline new_DataFrame). now left.
Defined.

(** X17.  The messages of [get_historical_data] tell where the data came
    from.  "Successfully fetched" appears exactly when the Meteostat frame
    is returned, "Successfully loaded" exactly when the frame read from
    the fallback file is returned, and "Fallback file not found" exactly
    when the empty frame is returned for want of the file. *)
Theorem historical_messages w lat lon start_date end_date :
  let r := get_historical_data lat lon start_date end_date w in
  (In (EvStreamlit st_success
         "Successfully fetched historical data from Meteostat.") (trace r) <->
   exists df,
     meteostat w (mkPoint lat lon 327) start_date end_date = Return df /\
     sufficient df = true /\ result r = Return df) /\
  (In (EvStreamlit st_success
         "Successfully loaded data from local fallback CSV.") (trace r) <->
   fetch_failed w lat lon start_date end_date /\
   exists d, csv_files w fallback_csv = Return d /\ result r = Return d) /\
  (In (EvStreamlit st_error
         "Fallback file 'jammu_historical_weather.csv' not found. Please ensure it exists.")
      (trace r) <->
   fetch_failed w lat lon start_date end_date /\
   exists ex, csv_files w fallback_csv = Raise ex /\
              is_FileNotFoundError ex = true /\
              result r = Return new_DataFrame).
Proof.
  cbv zeta. split; [| split]; split.
  all: historical_cases w.
  all: try (intros [Hfail [x [Hx Hr]]]; try discriminate; try congruence;
            cbn; tauto).
  all: try (intros [x [Hx [Hs Hr]]]; try discriminate; try congruence;
            cbn; tauto).
  all: try (intros [Hfail [x [Hx [Hnf' Hr]]]]; try discriminate;
            try congruence; cbn; tauto).
  all: cbn; intros Hin;
    repeat match goal with
    | Hor : _ \/ _ |- _ => destruct Hor as [Hor | Hor]
    end;
    try contradiction; try discriminate; eauto 6.
Qed.

Lemma historical_messages_witness :
  In (EvStreamlit st_error
        "Fallback file 'jammu_historical_weather.csv' not found. Please ensure it exists.")
     (trace (get_historical_data JAMMU_LAT JAMMU_LON Samples.since
                                 Samples.today Samples.offline)).
Proof.
  apply (historical_messages Samples.offline). split; [exact I |].
  exists Samples.no_file. repeat split.
Defined.

(* ===================================================================== *)
(** ** Where the prepared rows come from *)

Lemma keep_subset {A} (m : list bool) (l : list A) v :
  In v (keep m l) -> In v l.
Proof.
  intros H. apply keep_In in H as [i [_ Hl]]. eapply nth_error_In, Hl.
Qed.

(** [dropna] thins a column, it does not change which column a label
    names. *)
Lemma column_dropna label df :
  column label (dropna df) = keep (complete_rows df) (column label df).
Proof.
  unfold column, dropna. cbn [series].
  induction (series df) as [| c cols IH]; cbn.
  - now destruct (complete_rows df).
  - destruct (String.eqb (fst c) label); [reflexivity | exact IH].
Qed.

Lemma find_app_skip {A} (p : A -> bool) (a b : list A) :
  (forall x, In x a -> p x = false) -> find p (a ++ b) = find p b.
Proof.
  induction a as [| x a IH]; cbn; intros Hskip; [reflexivity |].
  rewrite (Hskip x (or_introl eq_refl)). apply IH. auto.
Qed.

Lemma find_filter_same {A} (p : A -> bool) (l : list A) :
  find p (filter p l) = find p l.
Proof.
  induction l as [| x l IH]; cbn; [reflexivity |].
  destruct (p x) eqn:Hp; cbn; now rewrite ?Hp.
Qed.

(** X18.  On a frame indexed by [time] that has no [ds] or [y] column of
    its own, the prepared frame is drawn from the frame itself: it has no
    more rows than the frame, its [ds] cells are index labels of the frame
    and its [y] cells are cells of the [prcp] column. *)
Theorem prepared_rows_come_from_the_frame df p :
  prepare df = Return p ->
  index_name df = Some "time" ->
  ~ In "ds" (columns df) -> ~ In "y" (columns df) ->
  len p <= len df /\
  (forall v, In v (column "ds" p) -> In v (index df)) /\
  (forall v, In v (column "y" p) -> In v (column "prcp" df)).
Proof.
  unfold prepare, reset_index. intros Hprep Hname Hds Hy. rewrite Hname in Hprep.
  destruct (has_column "time" df); [discriminate |].
  set (d2 := rename _ _) in Hprep.
  destruct (getitem ["ds"; "y"] d2) as [selected |] eqn:Hget; [| discriminate].
  inversion Hprep; subst p; clear Hprep.
  unfold getitem in Hget. destruct (find _ ["ds"; "y"]); [discriminate |].
  inversion Hget; subst selected; clear Hget.
  set (renamed := map (fun c : string * list value =>
                         (relabel [("time", "ds"); ("prcp", "y")] (fst c), snd c))
                      (series df)).
  split; [| split].
  - unfold len, dropna. cbn [index].
    etransitivity; [apply keep_shorter |].
    now rewrite RangeIndex_length.
  - intros v. rewrite column_dropna. intros Hv. apply keep_subset in Hv.
    unfold column in Hv. cbn [series flat_map] in Hv.
    cbn [find fst snd relabel String.eqb Ascii.eqb Bool.eqb] in Hv.
    exact Hv.
  - intros v. rewrite column_dropna. intros Hv. apply keep_subset in Hv.
    unfold column in Hv. cbn [series flat_map] in Hv.
    cbn [find fst snd relabel String.eqb Ascii.eqb Bool.eqb] in Hv.
    rewrite app_nil_r, find_app_skip, find_filter_same in Hv.
    2:{ intros c Hc. apply filter_In in Hc as [_ Hc].
        apply String.eqb_eq in Hc. rewrite Hc. reflexivity. }
    unfold column.
    assert (Hfind : forall cols : list (string * list value),
              (forall c, In c cols -> fst c <> "y") ->
              match find (fun c => String.eqb (fst c) "y")
                         (map (fun c : string * list value =>
                                 (relabel [("time", "ds"); ("prcp", "y")] (fst c),
                                  snd c)) cols) with
              | Some c => snd c
              | None => []
              end
              = match find (fun c => String.eqb (fst c) "prcp") cols with
                | Some c => snd c
                | None => []
                end).
    { induction cols as [| c cols IH]; intros Hno; [reflexivity |].
      cbn [map find fst snd]. rewrite relabel_time_prcp.
      destruct (String.eqb_spec "time" (fst c)) as [Ht | Ht].
      - rewrite <- Ht. cbn. apply IH. intros c' Hc'. apply Hno. now right.
      - destruct (String.eqb_spec "prcp" (fst c)) as [Hp | Hp].
        + rewrite <- Hp. reflexivity.
        + destruct (String.eqb_spec (fst c) "y") as [Hy' | Hy'].
          * exfalso. apply (Hno c (or_introl eq_refl)). exact Hy'.
          * destruct (String.eqb_spec (fst c) "prcp") as [Hp' | _];
              [congruence |].
            apply IH. intros c' Hc'. apply Hno. now right. }
    subst renamed. rewrite Hfind in Hv; [exact Hv |].
    intros c Hc Heq. apply Hy. unfold columns. rewrite <- Heq.
    now apply in_map.
Qed.

Lemma prepared_rows_come_from_the_frame_witness :
  len (dropna (mkDataFrame None (RangeIndex 3)
                 [("ds", map Samples.day (seq 0 3));
                  ("y", map (fun _ => Num (PyFloat "0.0")) (seq 0 3))]))
  <= len (Samples.daily_frame 3).
Proof.
  apply (prepared_rows_come_from_the_frame (Samples.daily_frame 3));
    try reflexivity; cbn; intuition discriminate.
Defined.
